(** * OpenAIService: a shallow embedding of [src/infrastructure/ai/openai_service.py]

    The service is a thin client over four remote endpoints.  Every method
    builds a request, calls the endpoint, reshapes the reply into a Python
    dictionary and decides what to do with a failure.  The embedding keeps
    that structure:

    - Python values that end up in result dictionaries are the inductive
      [value]; a [dict] is an association list in insertion order;
    - a Python [str] is a Rocq [string] holding its UTF-8 bytes;
    - exceptions are data ([exn]: class and [str(e)]); a method body is a
      computation in the monad [M], which threads the list of requests sent
      so far and ends in [Return] or [Raise];
    - everything outside the file (the network client, the [json] module,
      the clock) is the record [Env], so that a statement quantified over
      [Env] holds for every behaviour of the remote service.

    Only exceptions derived from [Exception] are modelled: interpreter
    signals such as KeyboardInterrupt or task cancellation are not values of
    [exn].  Logging is left out, except that an expression evaluated for a
    log line is kept where its evaluation can raise. *)

From Stdlib Require Import String Ascii List ZArith QArith Lia Bool Arith DecimalString.
From Stdlib Require Strings.Byte.
Import ListNotations.
Close Scope Q_scope.
Set Warnings "-register-all".
Open Scope string_scope.

(** ** Python strings *)

Module Py.

Definition chr (n : nat) : string := String (ascii_of_nat n) EmptyString.

(** The double-quote character and the line feed. *)
Definition dq : string := chr 34.
Definition nl : string := chr 10.

Definition quoted (s : string) : string := dq ++ s ++ dq.

Definition join (sep : string) (l : list string) : string :=
  match l with
  | [] => ""
  | x :: r => fold_left (fun acc y => acc ++ sep ++ y) r x
  end.

Definition unlines (l : list string) : string := join nl l.

Definition code (c : ascii) : nat := nat_of_ascii c.

(** [str.lower()] on the ASCII letters.  Bytes of a multi-byte character
    are left alone.  Python also lowers letters outside ASCII; the only ones
    it maps to ASCII letters are U+212A (to k) and U+0130 (to i followed by
    U+0307), which complete none of the keywords [_extract_suggestions]
    looks for, so its tests come out the same. *)
Definition ascii_lower (c : ascii) : ascii :=
  if (65 <=? code c)%nat && (code c <=? 90)%nat
  then ascii_of_nat (code c + 32) else c.

Definition ascii_upper (c : ascii) : ascii :=
  if (97 <=? code c)%nat && (code c <=? 122)%nat
  then ascii_of_nat (code c - 32) else c.

Fixpoint lower (s : string) : string :=
  match s with
  | EmptyString => EmptyString
  | String c r => String (ascii_lower c) (lower r)
  end.

Fixpoint upper (s : string) : string :=
  match s with
  | EmptyString => EmptyString
  | String c r => String (ascii_upper c) (upper r)
  end.

(** [needle in hay] *)
Fixpoint contains (needle hay : string) : bool :=
  if String.prefix needle hay then true
  else match hay with
       | EmptyString => false
       | String _ r => contains needle r
       end.

(** [s.split(sep)] for a one-character separator. *)
Fixpoint split (sep : ascii) (s : string) : list string :=
  match s with
  | EmptyString => [EmptyString]
  | String c r =>
      if Ascii.eqb c sep then EmptyString :: split sep r
      else match split sep r with
           | h :: t => String c h :: t
           | [] => [String c EmptyString]
           end
  end.

(** A byte that continues a multi-byte UTF-8 character. *)
Definition is_continuation (c : ascii) : bool :=
  (128 <=? code c)%nat && (code c <? 192)%nat.

(** [s[:n]]: the first [n] characters (not bytes). *)
Fixpoint take_chars (n : nat) (s : string) : string :=
  match s with
  | EmptyString => EmptyString
  | String c r =>
      if is_continuation c then String c (take_chars n r)
      else match n with
           | O => EmptyString
           | S n' => String c (take_chars n' r)
           end
  end.

(** The characters [str.isspace()] accepts, by their UTF-8 bytes:
    U+0009..U+000D, U+001C..U+0020; U+0085, U+00A0; U+1680, U+2000..U+200A,
    U+2028, U+2029, U+202F, U+205F, U+3000. *)
Definition space1 (c : ascii) : bool :=
  ((9 <=? code c)%nat && (code c <=? 13)%nat)
  || ((28 <=? code c)%nat && (code c <=? 32)%nat).

Definition space2 (c1 c2 : ascii) : bool :=
  (code c1 =? 194)%nat && ((code c2 =? 133)%nat || (code c2 =? 160)%nat).

Definition space3 (c1 c2 c3 : ascii) : bool :=
  ((code c1 =? 225)%nat && (code c2 =? 154)%nat && (code c3 =? 128)%nat)
  || ((code c1 =? 226)%nat && (code c2 =? 128)%nat
      && (((128 <=? code c3)%nat && (code c3 <=? 138)%nat)
          || (code c3 =? 168)%nat || (code c3 =? 169)%nat || (code c3 =? 175)%nat))
  || ((code c1 =? 226)%nat && (code c2 =? 129)%nat && (code c3 =? 159)%nat)
  || ((code c1 =? 227)%nat && (code c2 =? 128)%nat && (code c3 =? 128)%nat).

Fixpoint lstrip_bytes (l : list ascii) : list ascii :=
  match l with
  | [] => []
  | c1 :: r1 =>
      if space1 c1 then lstrip_bytes r1
      else match r1 with
           | [] => l
           | c2 :: r2 =>
               if space2 c1 c2 then lstrip_bytes r2
               else match r2 with
                    | [] => l
                    | c3 :: r3 => if space3 c1 c2 c3 then lstrip_bytes r3 else l
                    end
           end
  end.

(** The same scan from the end, on the reversed bytes. *)
Fixpoint rstrip_rev (l : list ascii) : list ascii :=
  match l with
  | [] => []
  | c1 :: r1 =>
      if space1 c1 then rstrip_rev r1
      else match r1 with
           | [] => l
           | c2 :: r2 =>
               if space2 c2 c1 then rstrip_rev r2
               else match r2 with
                    | [] => l
                    | c3 :: r3 => if space3 c3 c2 c1 then rstrip_rev r3 else l
                    end
           end
  end.

Definition lstrip (s : string) : string :=
  string_of_list_ascii (lstrip_bytes (list_ascii_of_string s)).

Definition rstrip (s : string) : string :=
  string_of_list_ascii (rev (rstrip_rev (rev (list_ascii_of_string s)))).

(** [s.strip()] *)
Definition strip (s : string) : string := rstrip (lstrip s).

(** Truth value of a string: [bool(s)]. *)
Definition truthy_str (s : string) : bool :=
  match s with EmptyString => false | String _ _ => true end.

(** The whitespace characters, each as its UTF-8 encoding. *)
Definition utf8 (l : list nat) : string :=
  string_of_list_ascii (map ascii_of_nat l).

Definition whitespace_chars : list string :=
  map utf8
    ([[9]; [10]; [11]; [12]; [13]; [28]; [29]; [30]; [31]; [32];
      [194; 133]; [194; 160]; [225; 154; 128]]
     ++ map (fun k => [226; 128; 128 + k]) (seq 0 11)
     ++ [[226; 128; 168]; [226; 128; 169]; [226; 128; 175];
         [226; 129; 159]; [227; 128; 128]])%list.

(** A string made of whitespace characters only (the empty string
    included). *)
Inductive whitespace_only : string -> Prop :=
| ws_empty : whitespace_only EmptyString
| ws_more w s : In w whitespace_chars -> whitespace_only s ->
                whitespace_only (w ++ s).

End Py.

(** ** Python values, dictionaries and exceptions *)

(** A float is carried as the exact value of its decimal literal; the code
    never computes with one. *)
Inductive pyfloat : Type :=
| Finite (q : Q)
| PosInf
| NegInf
| NaN.

Inductive value : Type :=
| VNone
| VBool (b : bool)
| VInt (z : Z)
| VFloat (f : pyfloat)
| VStr (s : string)
| VList (l : list value)
| VDict (d : list (string * value)).

(** A dictionary with string keys, in insertion order, keys distinct. *)
Definition dict : Type := list (string * value).

Definition bytes : Type := list Byte.byte.

Fixpoint dict_get (k : string) (d : dict) : option value :=
  match d with
  | [] => None
  | (k', v) :: r => if String.eqb k k' then Some v else dict_get k r
  end.

(** [d[k] = v]: an existing key keeps its place, a new one goes last. *)
Fixpoint dict_set (k : string) (v : value) (d : dict) : dict :=
  match d with
  | [] => [(k, v)]
  | (k', v') :: r =>
      if String.eqb k k' then (k, v) :: r else (k', v') :: dict_set k v r
  end.

(** [d.update(other)] *)
Definition dict_update (d other : dict) : dict :=
  fold_left (fun acc kv => dict_set (fst kv) (snd kv) acc) other d.

(** [d.get(k, default)] *)
Definition dict_get_default (k : string) (default : value) (d : dict) : value :=
  match dict_get k d with
  | Some v => v
  | None => default
  end.

Definition has_key (k : string) (d : dict) : bool :=
  match dict_get k d with
  | Some _ => true
  | None => false
  end.

Definition keys (d : dict) : list string := map fst d.

Definition opt_str (o : option string) : value :=
  match o with
  | Some s => VStr s
  | None => VNone
  end.

Definition str_list (l : list string) : value := VList (map VStr l).

(** [type(v).__name__] *)
Definition type_name (v : value) : string :=
  match v with
  | VNone => "NoneType"
  | VBool _ => "bool"
  | VInt _ => "int"
  | VFloat _ => "float"
  | VStr _ => "str"
  | VList _ => "list"
  | VDict _ => "dict"
  end.

(** Exception classes that the code raises, catches by name, or that the
    interpreter raises on the operations it uses.  [LibraryError] stands for
    any other class derived from [Exception] (the network client's own
    errors, for instance). *)
Inductive exn_class : Type :=
| Exception
| TypeError
| ValueError
| JSONDecodeError
| AttributeError
| IndexError
| KeyError
| RecursionError
| LibraryError (name : string).

(** An exception: its class and [str(e)]. *)
Record exn : Type := Exn { exn_class_of : exn_class; exn_str : string }.

Inductive outcome (A : Type) : Type :=
| Return (a : A)
| Raise (e : exn).
Arguments Return {A} a.
Arguments Raise {A} e.

Definition is_JSONDecodeError (e : exn) : bool :=
  match exn_class_of e with
  | JSONDecodeError => true
  | _ => false
  end.

Definition no_attribute (v : value) (attr : string) : exn :=
  Exn AttributeError ("'" ++ type_name v ++ "' object has no attribute '" ++ attr ++ "'").

Definition key_error (k : string) : exn := Exn KeyError ("'" ++ k ++ "'").

(** ** base64.b64encode *)

Module Base64.

Definition alphabet : string :=
  "ABCDEFGHIJKLMNOPQRSTUVWXYZabcdefghijklmnopqrstuvwxyz0123456789+/".

Definition digit (n : N) : string :=
  match String.get (N.to_nat (n mod 64)) alphabet with
  | Some c => String c EmptyString
  | None => EmptyString
  end.

Fixpoint encode_N (l : list N) : string :=
  match l with
  | [] => ""
  | [a] =>
      let n := (a * 65536)%N in
      digit (n / 262144) ++ digit (n / 4096) ++ "=="
  | [a; b] =>
      let n := (a * 65536 + b * 256)%N in
      digit (n / 262144) ++ digit (n / 4096) ++ digit (n / 64) ++ "="
  | a :: b :: c :: r =>
      let n := (a * 65536 + b * 256 + c)%N in
      digit (n / 262144) ++ digit (n / 4096) ++ digit (n / 64) ++ digit n
      ++ encode_N r
  end.

(** [base64.b64encode(data).decode('utf-8')] *)
Definition b64encode (data : bytes) : string := encode_N (map Byte.to_N data).

End Base64.

(** ** The remote service *)

Record file_obj : Type := {
  file_name : option string;
  file_data : bytes
}.

Record chat_request : Type := {
  chat_model : string;
  chat_modalities : option (list string);
  chat_audio : option dict;
  chat_messages : list value;
  chat_max_tokens : option Z;
  chat_temperature : option pyfloat
}.

Record speech_request : Type := {
  speech_model : string;
  speech_voice : string;
  speech_input : string;
  speech_speed : option pyfloat
}.

Record transcription_request : Type := {
  stt_model : string;
  stt_file : file_obj;
  stt_language : option string;
  stt_response_format : string;
  stt_timestamp_granularities : list string
}.

(** [message.audio]: the synthesized reply and its transcript. *)
Record audio_reply : Type := {
  data : string;
  transcript : string
}.

Record chat_message : Type := {
  content : option string;
  audio : option audio_reply
}.

Record chat_choice : Type := { message : chat_message }.

Record chat_completion : Type := { choices : list chat_choice }.

Record speech_response : Type := { speech_content : bytes }.

Record word_span : Type := {
  word : string;
  word_start : pyfloat;
  word_end : pyfloat
}.

(** An optional attribute of a reply object: the object may not have it at
    all, or have it set, to a value or to [None].  The client gives a field
    the service left out as an attribute set to [None]. *)
Inductive attr (A : Type) : Type :=
| Missing
| Attr (v : option A).
Arguments Missing {A}.
Arguments Attr {A} v.

(** [getattr(obj, name, default)]: the default stands in for a missing
    attribute only. *)
Definition getattr {A} (inject : A -> value) (a : attr A) (default : A) : value :=
  match a with
  | Missing => inject default
  | Attr (Some v) => inject v
  | Attr None => VNone
  end.

(** A transcription reply. *)
Record transcription : Type := {
  reply_text : string;
  reply_language : attr string;
  reply_duration : attr pyfloat;
  reply_words : attr (list word_span)
}.

(** What the service is handed from outside: the client's three endpoints,
    the [json] module and the clock. *)
Record Env : Type := {
  chat_completions_create : chat_request -> outcome chat_completion;
  audio_speech_create : speech_request -> outcome speech_response;
  audio_transcriptions_create : transcription_request -> outcome transcription;
  json_loads : string -> outcome value;
  json_dumps_indent2 : value -> outcome string;
  utcnow_isoformat : string
}.

(** A request that left the process. *)
Inductive event : Type :=
| SentChat (r : chat_request)
| SentSpeech (r : speech_request)
| SentTranscription (r : transcription_request).

(** ** The monad of method bodies *)

Definition M (A : Type) : Type := list event -> outcome A * list event.

Definition ret {A} (a : A) : M A := fun log => (Return a, log).

Definition raise {A} (e : exn) : M A := fun log => (Raise e, log).

Definition bind {A B} (m : M A) (k : A -> M B) : M B :=
  fun log =>
    match m log with
    | (Return a, log') => k a log'
    | (Raise e, log') => (Raise e, log')
    end.

Definition lift {A} (o : outcome A) : M A := fun log => (o, log).

(** [try: body  except Exception as e: handler e] *)
Definition try_except {A} (body : M A) (handler : exn -> M A) : M A :=
  fun log =>
    match body log with
    | (Return a, log') => (Return a, log')
    | (Raise e, log') => handler e log'
    end.

(** [try: body  except json.JSONDecodeError: handler] *)
Definition try_except_JSONDecodeError {A} (body : M A) (handler : M A) : M A :=
  fun log =>
    match body log with
    | (Return a, log') => (Return a, log')
    | (Raise e, log') =>
        if is_JSONDecodeError e then handler log' else (Raise e, log')
    end.

Declare Scope py_scope.
Delimit Scope py_scope with py.
Notation "x <- m ;; k" := (bind m (fun x => k))
  (at level 61, m at next level, right associativity) : py_scope.
Notation "m ;;; k" := (bind m (fun _ => k))
  (at level 61, right associativity) : py_scope.
Open Scope py_scope.

(** Running a method from an empty log. *)
Definition run {A} (m : M A) : outcome A * list event := m [].
Definition result {A} (m : M A) : outcome A := fst (run m).
Definition sent {A} (m : M A) : list event := snd (run m).

Definition send_chat (E : Env) (r : chat_request) : M chat_completion :=
  fun log => (chat_completions_create E r, (log ++ [SentChat r])%list).

Definition send_speech (E : Env) (r : speech_request) : M speech_response :=
  fun log => (audio_speech_create E r, (log ++ [SentSpeech r])%list).

Definition send_transcription (E : Env) (r : transcription_request) : M transcription :=
  fun log => (audio_transcriptions_create E r, (log ++ [SentTranscription r])%list).

(** [l[0]] *)
Definition index0 {A} (l : list A) : M A :=
  match l with
  | x :: _ => ret x
  | [] => raise (Exn IndexError "list index out of range")
  end.

(** [v.update(other)] for any value [v]. *)
Definition py_update (v : value) (other : dict) : M dict :=
  match v with
  | VDict d => ret (dict_update d other)
  | _ => raise (no_attribute v "update")
  end.

(** [v.get(k, default)] for any value [v]. *)
Definition py_get (v : value) (k : string) (default : value) : M value :=
  match v with
  | VDict d => ret (dict_get_default k default d)
  | _ => raise (no_attribute v "get")
  end.

(** [len(v)] *)
Definition py_len (v : value) : M Z :=
  match v with
  | VStr s => ret (Z.of_nat (String.length s))
  | VList l => ret (Z.of_nat (List.length l))
  | VDict d => ret (Z.of_nat (List.length d))
  | _ => raise (Exn TypeError ("object of type '" ++ type_name v ++ "' has no len()"))
  end.

(** [json.loads(content)]: a [None] argument is refused before decoding. *)
Definition py_json_loads (E : Env) (content : option string) : M value :=
  match content with
  | Some s => lift (json_loads E s)
  | None =>
      raise (Exn TypeError
               "the JSON object must be str, bytes or bytearray, not NoneType")
  end.

(** ** The service's methods *)

(** [Union[bytes, str]]: raw audio, or audio already in base64. *)
Inductive audio_arg : Type :=
| AudioBytes (b : bytes)
| AudioText (s : string).

(** [Union[bytes, io.BytesIO]] *)
Inductive file_arg : Type :=
| FileBytes (b : bytes)
| FileObj (f : file_obj).

Definition to_base64 (audio_data : audio_arg) : string :=
  match audio_data with
  | AudioBytes b => Base64.b64encode b
  | AudioText s => s
  end.

(** [bool(audio_data)] for an optional argument. *)
Definition truthy_audio (audio_data : option audio_arg) : bool :=
  match audio_data with
  | Some (AudioBytes (_ :: _)) => true
  | Some (AudioText s) => Py.truthy_str s
  | _ => false
  end.

Definition truthy_opt_str (s : option string) : bool :=
  match s with
  | Some s => Py.truthy_str s
  | None => false
  end.

(** [message.audio.data if message.audio else None] and its sibling. *)
Definition audio_data_or_None (m : chat_message) : value :=
  match audio m with
  | Some a => VStr (data a)
  | None => VNone
  end.

Definition audio_transcript_or_None (m : chat_message) : value :=
  match audio m with
  | Some a => VStr (transcript a)
  | None => VNone
  end.

(** *** process_voice_input_for_matching *)

Definition matching_prompt (language : string) : string :=
  Py.unlines
    [ "You are an intelligent voice matching assistant. Users will tell you what topics they want to discuss, please:";
      "";
      "1. Understand the user's voice content";
      "2. Extract main topics (in English)";
      "3. Generate English hashtags (for matching algorithm)";
      "4. Respond in " ++ language ++ " to confirm understanding and start matching";
      "";
      "Please return in JSON format:";
      "{";
      "    " ++ Py.quoted "understood_text" ++ ": "
        ++ Py.quoted "Specific content spoken by the user" ++ ",";
      "    " ++ Py.quoted "extracted_topics" ++ ": ["
        ++ Py.quoted "Topic1" ++ ", " ++ Py.quoted "Topic2" ++ "],";
      "    " ++ Py.quoted "generated_hashtags" ++ ": ["
        ++ Py.quoted "#hashtag1" ++ ", " ++ Py.quoted "#hashtag2" ++ "],";
      "    " ++ Py.quoted "match_intent" ++ ": "
        ++ Py.quoted "Summary of user's matching intent";
      "}";
      "";
      "Also respond with a friendly voice to confirm understanding and inform that matching is in progress." ].

Definition input_audio_part (data format : string) : value :=
  VDict [ ("type", VStr "input_audio");
          ("input_audio", VDict [("data", VStr data); ("format", VStr format)]) ].

Definition matching_request (audio_base64 audio_format language : string) : chat_request :=
  {| chat_model := "gpt-4o-audio-preview";
     chat_modalities := Some ["text"; "audio"];
     chat_audio := Some [("voice", VStr "alloy"); ("format", VStr "wav")];
     chat_messages :=
       [ VDict [("role", VStr "system"); ("content", VStr (matching_prompt language))];
         VDict [("role", VStr "user");
                ("content", VList [input_audio_part audio_base64 audio_format])] ];
     chat_max_tokens := None;
     chat_temperature := None |}.

(** The record substituted when the reply text does not decode. *)
Definition matching_parse_fallback (text : string) : dict :=
  [ ("understood_text", VStr text);
    ("extracted_topics", str_list ["General topic"]);
    ("generated_hashtags", str_list ["#general"]);
    ("match_intent", VStr "Wants to chat") ].

(** The record returned from the [except Exception] clause. *)
Definition matching_failure (e : exn) : dict :=
  [ ("understood_text", VStr "Sorry, I didn't understand what you said");
    ("extracted_topics", str_list ["General topic"]);
    ("generated_hashtags", str_list ["#general"]);
    ("match_intent", VStr "General chat");
    ("audio_response", VNone);
    ("text_response", VStr ("Error processing voice input: " ++ exn_str e));
    ("error", VStr (exn_str e)) ].

(** The four entries added to every record of the success path. *)
Definition reply_fields (E : Env) (m : chat_message) : dict :=
  [ ("audio_response", audio_data_or_None m);
    ("text_response", opt_str (content m));
    ("audio_transcript", audio_transcript_or_None m);
    ("processing_time", VStr (utcnow_isoformat E)) ].

Definition process_voice_input_for_matching
    (E : Env) (audio_data : audio_arg) (audio_format language : string) : M dict :=
  try_except
    (let audio_base64 := to_base64 audio_data in
     response <- send_chat E (matching_request audio_base64 audio_format language) ;;
     choice <- index0 (choices response) ;;
     let message := message choice in
     result_data <-
       (match content message with
        | Some text =>
            if Py.truthy_str text then
              try_except_JSONDecodeError
                (lift (json_loads E text))
                (ret (VDict (matching_parse_fallback text)))
            else ret (VDict [])
        | None => ret (VDict [])
        end) ;;
     result_data <- py_update result_data (reply_fields E message) ;;
     ret result_data)
    (fun e => ret (matching_failure e)).

(** *** _extract_suggestions *)

Definition suggestion_tag : string := "💡 AI provided a suggestion".
Definition topic_tag : string := "🎯 New topic recommendation".
Definition fact_tag : string := "🔍 Fact checking".

Definition _extract_suggestions (ai_text : string) : list string :=
  let suggestions := [] in
  let suggestions :=
    if Py.contains "suggest" (Py.lower ai_text)
    then (suggestions ++ [suggestion_tag])%list else suggestions in
  let suggestions :=
    if Py.contains "topic" (Py.lower ai_text)
    then (suggestions ++ [topic_tag])%list else suggestions in
  let suggestions :=
    if Py.contains "fact" (Py.lower ai_text) || Py.contains "info" (Py.lower ai_text)
    then (suggestions ++ [fact_tag])%list else suggestions in
  suggestions.

(** *** moderate_room_conversation *)

Definition moderation_prompt
    (moderation_mode : string) (room_participants : option (list string)) : string :=
  Py.unlines
    [ "You are an intelligent room host and chat secretary. Current mode: " ++ moderation_mode;
      "";
      "Your responsibilities:";
      "1.  Engage the conversation: Actively provide topics when the conversation is cold";
      "2.  Fact Check: When participants mention potentially inaccurate information, provide friendly verification";
      "3.  Comment: Respond appropriately to conversation content and provide suggestions";
      "4.  Content Moderation: Ensure the conversation is friendly and harmonious";
      "5.  Assistive Guidance: Help participants communicate better";
      "";
      "Current room participants: "
        ++ Py.join ", " (match room_participants with Some l => l | None => [] end);
      "";
      "Please provide an appropriate response based on the input content, which can be a voice response, a text suggestion, or a topic recommendation.";
      "The response should be natural, friendly, and helpful." ].

(** [l[-10:]] *)
Definition last10 {A} (l : list A) : list A := skipn (List.length l - 10) l.

Definition input_text_part (text : string) : value :=
  VDict [("type", VStr "input_text"); ("text", VStr text)].

Definition moderation_messages
    (audio_data : option audio_arg) (text_input : option string)
    (conversation_context : option (list value))
    (room_participants : option (list string)) (moderation_mode : string)
  : list value :=
  let context_messages :=
    [ VDict [("role", VStr "system");
             ("content", VStr (moderation_prompt moderation_mode room_participants))] ] in
  let context_messages :=
    match conversation_context with
    | Some (m :: r) => (context_messages ++ last10 (m :: r))%list
    | _ => context_messages
    end in
  let user_content := [] in
  let user_content :=
    if truthy_audio audio_data then
      match audio_data with
      | Some a => (user_content ++ [input_audio_part (to_base64 a) "wav"])%list
      | None => user_content
      end
    else user_content in
  let user_content :=
    match text_input with
    | Some t => if Py.truthy_str t then (user_content ++ [input_text_part t])%list
                else user_content
    | None => user_content
    end in
  (context_messages ++
   [ VDict [("role", VStr "user");
            ("content",
             VList (match user_content with
                    | [] => [input_text_part "Please assist in moderating the conversation"]
                    | _ => user_content
                    end))] ])%list.

Definition moderation_request (messages : list value) : chat_request :=
  {| chat_model := "gpt-4o-audio-preview";
     chat_modalities := Some ["text"; "audio"];
     chat_audio := Some [("voice", VStr "nova"); ("format", VStr "wav")];
     chat_messages := messages;
     chat_max_tokens := Some 300%Z;
     chat_temperature := None |}.

Definition moderation_failure (e : exn) : dict :=
  [ ("ai_response",
     VDict [ ("text", VStr ("AI host encountered an issue: " ++ exn_str e));
             ("audio", VNone) ]);
    ("error", VStr (exn_str e)) ].

Definition moderate_room_conversation
    (E : Env) (audio_data : option audio_arg) (text_input : option string)
    (conversation_context : option (list value))
    (room_participants : option (list string)) (moderation_mode : string) : M dict :=
  try_except
    (let context_messages :=
       moderation_messages audio_data text_input conversation_context
                           room_participants moderation_mode in
     response <- send_chat E (moderation_request context_messages) ;;
     choice <- index0 (choices response) ;;
     let message := message choice in
     ret [ ("ai_response",
            VDict [ ("text", opt_str (content message));
                    ("audio", audio_data_or_None message);
                    ("audio_transcript", audio_transcript_or_None message) ]);
           ("moderation_type", VStr moderation_mode);
           ("suggestions",
            str_list (_extract_suggestions
                        (match content message with
                         | Some t => if Py.truthy_str t then t else ""
                         | None => ""
                         end)));
           ("timestamp", VStr (utcnow_isoformat E));
           ("participants",
            match room_participants with
            | Some l => str_list l
            | None => VNone
            end) ])
    (fun e => ret (moderation_failure e)).

(** *** health_check *)

Definition health_probe : speech_request :=
  {| speech_model := "tts-1";
     speech_voice := "alloy";
     speech_input := "Health check test";
     speech_speed := None |}.

Definition health_check (E : Env) : M dict :=
  try_except
    (response <- send_speech E health_probe ;;
     ret [ ("status", VStr "healthy");
           ("service", VStr "openai_tts");
           ("model", VStr "tts-1");
           ("timestamp", VStr (utcnow_isoformat E)) ])
    (fun e =>
       ret [ ("status", VStr "unhealthy");
             ("service", VStr "openai_gpt4o_audio");
             ("error", VStr (exn_str e));
             ("timestamp", VStr (utcnow_isoformat E)) ]).

(** *** text_to_speech *)

Definition tts_request (text voice : string) (speed : pyfloat) : speech_request :=
  {| speech_model := "tts-1-hd";
     speech_voice := voice;
     speech_input := text;
     speech_speed := Some speed |}.

Definition text_to_speech
    (E : Env) (text voice : string) (speed : pyfloat) : M bytes :=
  try_except
    (response <- send_speech E (tts_request text voice speed) ;;
     let audio_bytes := speech_content response in
     ret audio_bytes)
    (fun e => raise e).

(** *** speech_to_text *)

Definition hyphen : ascii := ascii_of_nat 45.

(** [language.split('-')[0] if language else None] *)
Definition request_language (language : string) : M (option string) :=
  if Py.truthy_str language then
    first <- index0 (Py.split hyphen language) ;;
    ret (Some first)
  else ret None.

Definition word_entry (w : word_span) : value :=
  VDict [ ("word", VStr (word w));
          ("start", VFloat (word_start w));
          ("end", VFloat (word_end w)) ].

(** [io.BytesIO(audio_file)] named "audio.mp3", or the buffer as given. *)
Definition as_buffer (audio_file : file_arg) : file_obj :=
  match audio_file with
  | FileBytes b => {| file_name := Some "audio.mp3"; file_data := b |}
  | FileObj f => f
  end.

Definition stt_request (audio_buffer : file_obj) (lang : option string) : transcription_request :=
  {| stt_model := "whisper-1";
     stt_file := audio_buffer;
     stt_language := lang;
     stt_response_format := "verbose_json";
     stt_timestamp_granularities := ["word"] |}.

(** The dictionary built from a transcription reply. *)
Definition transcription_record (language : string) (response : transcription) : dict :=
  let transcription := reply_text response in
  let detected_language := getattr VStr (reply_language response) language in
  let duration := getattr VFloat (reply_duration response) (Finite 0%Q) in
  let words :=
    match reply_words response with
    | Attr (Some (w :: r)) => map word_entry (w :: r)
    | _ => []
    end in
  [ ("text", VStr transcription);
    ("language", detected_language);
    ("duration", duration);
    ("confidence", VFloat (Finite (95 # 100)));
    ("words", VList words) ].

Definition stt_failure (e : exn) : exn :=
  Exn Exception ("STT processing failed: " ++ exn_str e).

Definition speech_to_text (E : Env) (audio_file : file_arg) (language : string) : M dict :=
  try_except
    (let audio_buffer := as_buffer audio_file in
     lang <- request_language language ;;
     response <- send_transcription E (stt_request audio_buffer lang) ;;
     ret (transcription_record language response))
    (fun e => raise (stt_failure e)).

(** *** extract_topics_and_hashtags *)

Definition extraction_prompt (language context_info : string) : string :=
  Py.unlines
    [ "You are an expert at analyzing conversation topics and generating relevant hashtags for social matching.";
      "";
      "Your task is to analyze the user's input and extract:";
      "1. Main topics (3-5 specific topics)";
      "2. Relevant hashtags (5-8 hashtags for matching)";
      "3. Category classification";
      "4. Sentiment analysis";
      "5. Conversation style preference";
      "";
      "Please respond in JSON format:";
      "{";
      "    " ++ Py.quoted "main_topics" ++ ": [" ++ Py.quoted "Topic1" ++ ", "
        ++ Py.quoted "Topic2" ++ ", " ++ Py.quoted "Topic3" ++ "],";
      "    " ++ Py.quoted "hashtags" ++ ": [" ++ Py.quoted "#hashtag1" ++ ", "
        ++ Py.quoted "#hashtag2" ++ ", " ++ Py.quoted "#hashtag3" ++ ", "
        ++ Py.quoted "#hashtag4" ++ ", " ++ Py.quoted "#hashtag5" ++ "],";
      "    " ++ Py.quoted "category" ++ ": "
        ++ Py.quoted "technology|business|lifestyle|entertainment|education|sports|health|travel|other"
        ++ ",";
      "    " ++ Py.quoted "sentiment" ++ ": " ++ Py.quoted "positive|negative|neutral" ++ ",";
      "    " ++ Py.quoted "conversation_style" ++ ": "
        ++ Py.quoted "casual|professional|academic|creative" ++ ",";
      "    " ++ Py.quoted "confidence" ++ ": 0.95,";
      "    " ++ Py.quoted "summary" ++ ": "
        ++ Py.quoted "Brief summary of what the user wants to discuss";
      "}";
      "";
      "Language preference: " ++ language;
      "Focus on creating hashtags that will help match users with similar interests."
        ++ context_info ].

Definition extraction_request (text language context_info : string) : chat_request :=
  {| chat_model := "gpt-4";
     chat_modalities := None;
     chat_audio := None;
     chat_messages :=
       [ VDict [("role", VStr "system");
                ("content", VStr (extraction_prompt language context_info))];
         VDict [("role", VStr "user");
                ("content",
                 VStr ("Please analyze this text and extract topics/hashtags: " ++ text))] ];
     chat_max_tokens := Some 500%Z;
     chat_temperature := Some (Finite (3 # 10)) |}.

(** The record substituted when the reply text does not decode. *)
Definition extraction_parse_fallback (content : option string) : dict :=
  [ ("main_topics", str_list ["general"; "conversation"]);
    ("hashtags", str_list ["#chat"; "#social"; "#conversation"]);
    ("category", VStr "other");
    ("sentiment", VStr "neutral");
    ("conversation_style", VStr "casual");
    ("confidence", VFloat (Finite (5 # 10)));
    ("summary", VStr "General conversation topic");
    ("raw_response", opt_str content) ].

(** The record returned from the outer [except Exception] clause. *)
Definition extraction_failure (e : exn) : dict :=
  [ ("main_topics", str_list ["general"]);
    ("hashtags", str_list ["#general"; "#chat"]);
    ("category", VStr "other");
    ("sentiment", VStr "neutral");
    ("conversation_style", VStr "casual");
    ("confidence", VFloat (Finite (1 # 10)));
    ("summary", VStr "Could not analyze topics");
    ("error", VStr (exn_str e)) ].

(** The line added to the prompt for a non-empty [context]. *)
Definition context_info_of (E : Env) (context : option dict) : outcome string :=
  match context with
  | Some (kv :: r) =>
      match json_dumps_indent2 E (VDict (kv :: r)) with
      | Return dumped => Return (Py.nl ++ "User context: " ++ dumped)
      | Raise e => Raise e
      end
  | _ => Return ""
  end.

Definition extract_topics_and_hashtags
    (E : Env) (text : string) (context : option dict) (language : string) : M dict :=
  try_except
    (context_info <- lift (context_info_of E context) ;;
     response <- send_chat E (extraction_request text language context_info) ;;
     choice <- index0 (choices response) ;;
     let content := content (message choice) in
     try_except_JSONDecodeError
       (result <- py_json_loads E content ;;
        (* the log line reads result.get('main_topics', []) *)
        py_get result "main_topics" (VList []) ;;;
        match result with
        | VDict d => ret d
        | _ => raise (no_attribute result "get")
        end)
       (ret (extraction_parse_fallback content)))
    (fun e => ret (extraction_failure e)).

(** *** process_voice_for_hashtags *)

(** The two methods the pipeline calls through [self]. *)
Record Self : Type := {
  self_speech_to_text : file_arg -> string -> M dict;
  self_extract_topics_and_hashtags : string -> option dict -> string -> M dict
}.

(** The service object itself. *)
Definition service (E : Env) : Self :=
  {| self_speech_to_text := speech_to_text E;
     self_extract_topics_and_hashtags := extract_topics_and_hashtags E |}.

(** [d[k]] *)
Definition subscript (d : dict) (k : string) : M value :=
  match dict_get k d with
  | Some v => ret v
  | None => raise (key_error k)
  end.

Definition no_speech : dict :=
  [ ("transcription", VStr "");
    ("main_topics", VList []);
    ("hashtags", VList []);
    ("error", VStr "No speech detected in audio") ].

Definition hashtags_failure (e : exn) : dict :=
  [ ("transcription", VStr "");
    ("main_topics", VList []);
    ("hashtags", VList []);
    ("error", VStr (exn_str e)) ].

Definition voice_context (language audio_format : string) : dict :=
  [ ("source", VStr "voice_input");
    ("language", VStr language);
    ("audio_format", VStr audio_format) ].

Definition process_voice_for_hashtags
    (self : Self) (audio_data : file_arg) (audio_format language : string) : M dict :=
  try_except
    (stt_result <- self_speech_to_text self audio_data language ;;
     transcription <- subscript stt_result "text" ;;
     match transcription with
     | VStr spoken =>
         if negb (Py.truthy_str (Py.strip spoken)) then ret no_speech
         else
           topic_result <- self_extract_topics_and_hashtags self spoken
                             (Some (voice_context language audio_format)) "en-US" ;;
           stt_language <- subscript stt_result "language" ;;
           stt_duration <- subscript stt_result "duration" ;;
           stt_confidence <- subscript stt_result "confidence" ;;
           let result :=
             [ ("transcription", transcription);
               ("language", stt_language);
               ("duration", stt_duration);
               ("confidence", stt_confidence);
               ("main_topics", dict_get_default "main_topics" (VList []) topic_result);
               ("hashtags", dict_get_default "hashtags" (VList []) topic_result);
               ("category", dict_get_default "category" (VStr "other") topic_result);
               ("sentiment", dict_get_default "sentiment" (VStr "neutral") topic_result);
               ("conversation_style",
                dict_get_default "conversation_style" (VStr "casual") topic_result);
               ("summary",
                dict_get_default "summary" (VStr (Py.take_chars 100 spoken)) topic_result) ] in
           (* the log line reads len(result['hashtags']) *)
           py_len (dict_get_default "hashtags" (VList []) topic_result) ;;;
           ret result
     | _ => raise (no_attribute transcription "strip")
     end)
    (fun e => ret (hashtags_failure e)).

(** ** A reference [json] module

    The methods take [json.loads] and [json.dumps] from [Env], so the
    theorems below hold for every decoder.  The codec here follows CPython's
    scanner and encoder and is what the examples run with.  A decoding error
    carries the reason only, without the position.  Three things are left
    to CPython: a number too large for a float is kept exact where Python
    gives infinity, nesting has no depth limit, and a float is always
    written positionally, where Python turns to an exponent below 0.0001 and
    from 1e16 on. *)

Module Json.

Definition decode_error {A} (reason : string) : outcome A :=
  Raise (Exn JSONDecodeError reason).

Definition is_ws (c : ascii) : bool :=
  (Py.code c =? 32)%nat || (Py.code c =? 9)%nat
  || (Py.code c =? 10)%nat || (Py.code c =? 13)%nat.

Fixpoint skip_ws (s : string) : string :=
  match s with
  | String c r => if is_ws c then skip_ws r else s
  | EmptyString => s
  end.

Definition is_digit (c : ascii) : bool :=
  (48 <=? Py.code c)%nat && (Py.code c <=? 57)%nat.

Definition digit_value (c : ascii) : Z := Z.of_nat (Py.code c - 48).

(** The longest prefix of digits, and what follows it. *)
Fixpoint span_digits (s : string) : list ascii * string :=
  match s with
  | String c r =>
      if is_digit c then let (ds, rest) := span_digits r in (c :: ds, rest)
      else ([], s)
  | EmptyString => ([], s)
  end.

Definition number_of (ds : list ascii) : Z :=
  fold_left (fun acc c => (acc * 10 + digit_value c)%Z) ds 0%Z.

(** The fraction: a point and at least one digit. *)
Definition scan_fraction (s : string) : option (list ascii) * string :=
  match s with
  | String "." r =>
      match span_digits r with
      | ([], _) => (None, s)
      | (ds, rest) => (Some ds, rest)
      end
  | _ => (None, s)
  end.

(** The exponent: e or E, an optional sign, at least one digit. *)
Definition scan_exponent (s : string) : option Z * string :=
  match s with
  | String c r =>
      if Ascii.eqb c "e" || Ascii.eqb c "E" then
        let (negative, r') :=
          match r with
          | String "-" r' => (true, r')
          | String "+" r' => (false, r')
          | _ => (false, r)
          end in
        match span_digits r' with
        | ([], _) => (None, s)
        | (ds, rest) =>
            (Some (if negative then (- number_of ds)%Z else number_of ds), rest)
        end
      else (None, s)
  | EmptyString => (None, s)
  end.

Definition scale (mantissa exponent : Z) : Q :=
  match exponent with
  | Z0 => Qred (mantissa # 1)
  | Zpos p => Qred ((mantissa * Z.pow 10 (Zpos p)) # 1)
  | Zneg p => Qred (mantissa # Pos.pow 10 p)
  end.

(** A number: an optional minus sign, then 0 or a non-zero digit and more
    digits, then an optional fraction and an optional exponent.  It is a
    float as soon as it has one of the two. *)
Definition scan_number (s : string) : option (value * string) :=
  let (negative, body) :=
    match s with
    | String "-" r => (true, r)
    | _ => (false, s)
    end in
  let integer :=
    match body with
    | String "0" r => Some (["0"%char], r)
    | _ => match span_digits body with
           | ([], _) => None
           | (ds, rest) => Some (ds, rest)
           end
    end in
  match integer with
  | None => None
  | Some (ds, rest) =>
      let (frac, rest1) := scan_fraction rest in
      let (expo, rest2) := scan_exponent rest1 in
      let sign := fun z => if negative then (- z)%Z else z in
      match frac, expo with
      | None, None => Some (VInt (sign (number_of ds)), rest2)
      | _, _ =>
          let fs := match frac with Some fs => fs | None => [] end in
          let e := match expo with Some e => e | None => 0%Z end in
          Some (VFloat (Finite (scale (sign (number_of (ds ++ fs)))
                                      (e - Z.of_nat (List.length fs)))),
                rest2)
      end
  end.

Definition hex_value (c : ascii) : option N :=
  let n := Py.code c in
  if (48 <=? n)%nat && (n <=? 57)%nat then Some (N.of_nat (n - 48))
  else if (97 <=? n)%nat && (n <=? 102)%nat then Some (N.of_nat (n - 87))
  else if (65 <=? n)%nat && (n <=? 70)%nat then Some (N.of_nat (n - 55))
  else None.

(** Four hexadecimal digits. *)
Definition scan_hex4 (s : string) : option (N * string) :=
  match s with
  | String a (String b (String c (String d rest))) =>
      match hex_value a, hex_value b, hex_value c, hex_value d with
      | Some x, Some y, Some z, Some w =>
          Some ((((x * 16 + y) * 16 + z) * 16 + w)%N, rest)
      | _, _, _, _ => None
      end
  | _ => None
  end.

Definition byte_of (n : N) : string := Py.chr (N.to_nat n).

(** The UTF-8 bytes of a code point. *)
Definition encode_utf8 (cp : N) : string :=
  if (cp <? 128)%N then byte_of cp
  else if (cp <? 2048)%N then
    byte_of (192 + cp / 64) ++ byte_of (128 + cp mod 64)
  else if (cp <? 65536)%N then
    byte_of (224 + cp / 4096) ++ byte_of (128 + (cp / 64) mod 64)
    ++ byte_of (128 + cp mod 64)
  else
    byte_of (240 + cp / 262144) ++ byte_of (128 + (cp / 4096) mod 64)
    ++ byte_of (128 + (cp / 64) mod 64) ++ byte_of (128 + cp mod 64).

Definition simple_escape (c : ascii) : option string :=
  let n := Py.code c in
  if (n =? 34)%nat then Some Py.dq
  else if (n =? 92)%nat then Some (Py.chr 92)
  else if (n =? 47)%nat then Some "/"
  else if (n =? 98)%nat then Some (Py.chr 8)
  else if (n =? 102)%nat then Some (Py.chr 12)
  else if (n =? 110)%nat then Some (Py.chr 10)
  else if (n =? 114)%nat then Some (Py.chr 13)
  else if (n =? 116)%nat then Some (Py.chr 9)
  else None.

(** A [\uXXXX] escape, the [\u] already read; a high surrogate followed by
    a low one makes a single character. *)
Definition scan_unicode_escape (s : string) : option (string * string) :=
  match scan_hex4 s with
  | None => None
  | Some (hi, rest) =>
      let single := Some (encode_utf8 hi, rest) in
      if (55296 <=? hi)%N && (hi <=? 56319)%N then
        match rest with
        | String b (String u rest') =>
            if (Py.code b =? 92)%nat && (Py.code u =? 117)%nat then
              match scan_hex4 rest' with
              | Some (lo, rest'') =>
                  if (56320 <=? lo)%N && (lo <=? 57343)%N
                  then Some (encode_utf8 (65536 + (hi - 55296) * 1024 + (lo - 56320)),
                             rest'')
                  else single
              | None => single
              end
            else single
        | _ => single
        end
      else single
  end.

(** The body of a string literal, the opening quote already read. *)
Fixpoint scan_string (fuel : nat) (s : string) : option (string * string) :=
  match fuel with
  | O => None
  | S fuel' =>
      match s with
      | EmptyString => None
      | String c r =>
          if (Py.code c =? 34)%nat then Some (EmptyString, r)
          else if (Py.code c =? 92)%nat then
            match r with
            | EmptyString => None
            | String e r' =>
                let escaped :=
                  if (Py.code e =? 117)%nat then scan_unicode_escape r'
                  else match simple_escape e with
                       | Some t => Some (t, r')
                       | None => None
                       end in
                match escaped with
                | None => None
                | Some (t, rest) =>
                    match scan_string fuel' rest with
                    | Some (body, rest') => Some (t ++ body, rest')
                    | None => None
                    end
                end
            end
          else if (Py.code c <? 32)%nat then None
          else match scan_string fuel' r with
               | Some (body, rest) => Some (String c body, rest)
               | None => None
               end
      end
  end.

Definition dict_of_pairs (pairs : list (string * value)) : dict :=
  fold_left (fun acc kv => dict_set (fst kv) (snd kv) acc) pairs [].

Definition starts_with (p s : string) : option string :=
  if String.prefix p s
  then Some (String.substring (String.length p) (String.length s - String.length p) s)
  else None.

Fixpoint scan_value (fuel : nat) (s : string) : option (value * string) :=
  match fuel with
  | O => None
  | S fuel' =>
      match s with
      | EmptyString => None
      | String c r =>
          if (Py.code c =? 34)%nat then
            match scan_string (String.length r) r with
            | Some (t, rest) => Some (VStr t, rest)
            | None => None
            end
          else if (Py.code c =? 123)%nat then
            let r' := skip_ws r in
            match r' with
            | String "}" rest => Some (VDict [], rest)
            | _ =>
                match scan_members fuel' r' with
                | Some (pairs, rest) => Some (VDict (dict_of_pairs pairs), rest)
                | None => None
                end
            end
          else if (Py.code c =? 91)%nat then
            let r' := skip_ws r in
            match r' with
            | String "]" rest => Some (VList [], rest)
            | _ =>
                match scan_elements fuel' r' with
                | Some (vs, rest) => Some (VList vs, rest)
                | None => None
                end
            end
          else
            match starts_with "null" s, starts_with "true" s, starts_with "false" s with
            | Some rest, _, _ => Some (VNone, rest)
            | _, Some rest, _ => Some (VBool true, rest)
            | _, _, Some rest => Some (VBool false, rest)
            | _, _, _ =>
                match scan_number s with
                | Some found => Some found
                | None =>
                    match starts_with "NaN" s, starts_with "Infinity" s,
                          starts_with "-Infinity" s with
                    | Some rest, _, _ => Some (VFloat NaN, rest)
                    | _, Some rest, _ => Some (VFloat PosInf, rest)
                    | _, _, Some rest => Some (VFloat NegInf, rest)
                    | _, _, _ => None
                    end
                end
            end
      end
  end

(** The members of an object from a key's opening quote on, up to and
    including the closing brace. *)
with scan_members (fuel : nat) (s : string) : option (list (string * value) * string) :=
  match fuel with
  | O => None
  | S fuel' =>
      match s with
      | String c r =>
          if (Py.code c =? 34)%nat then
            match scan_string (String.length r) r with
            | None => None
            | Some (key, rest) =>
                match skip_ws rest with
                | String ":" rest1 =>
                    match scan_value fuel' (skip_ws rest1) with
                    | None => None
                    | Some (v, rest2) =>
                        match skip_ws rest2 with
                        | String "}" rest3 => Some ([(key, v)], rest3)
                        | String "," rest3 =>
                            match scan_members fuel' (skip_ws rest3) with
                            | Some (more, rest4) => Some ((key, v) :: more, rest4)
                            | None => None
                            end
                        | _ => None
                        end
                    end
                | _ => None
                end
            end
          else None
      | EmptyString => None
      end
  end

(** The elements of an array from the first one on, up to and including
    the closing bracket. *)
with scan_elements (fuel : nat) (s : string) : option (list value * string) :=
  match fuel with
  | O => None
  | S fuel' =>
      match scan_value fuel' s with
      | None => None
      | Some (v, rest) =>
          match skip_ws rest with
          | String "]" rest1 => Some ([v], rest1)
          | String "," rest1 =>
              match scan_elements fuel' (skip_ws rest1) with
              | Some (more, rest2) => Some (v :: more, rest2)
              | None => None
              end
          | _ => None
          end
      end
  end.

(** [json.loads(s)] *)
Definition loads (s : string) : outcome value :=
  if String.prefix (Py.utf8 [239; 187; 191]) s
  then decode_error "Unexpected UTF-8 BOM (decode using utf-8-sig)"
  else
    match scan_value (2 * String.length s + 2) (skip_ws s) with
    | None => decode_error "Expecting value"
    | Some (v, rest) =>
        match skip_ws rest with
        | EmptyString => Return v
        | _ => decode_error "Extra data"
        end
    end.

(** *** The encoder, [json.dumps(v, indent=2)] *)

Definition hex_digit (n : N) : string :=
  match String.get (N.to_nat (n mod 16)) "0123456789abcdef" with
  | Some c => String c EmptyString
  | None => EmptyString
  end.

Definition hex4 (n : N) : string :=
  hex_digit (n / 4096) ++ hex_digit (n / 256) ++ hex_digit (n / 16) ++ hex_digit n.

Definition backslash : string := Py.chr 92.

(** The code points of a UTF-8 string. *)
Fixpoint code_points (l : list N) : list N :=
  match l with
  | [] => []
  | a :: r =>
      if (a <? 192)%N then a :: code_points r
      else match r with
           | [] => [a]
           | b :: r1 =>
               if (a <? 224)%N then ((a - 192) * 64 + (b - 128))%N :: code_points r1
               else match r1 with
                    | [] => [a; b]
                    | c :: r2 =>
                        if (a <? 240)%N then
                          ((a - 224) * 4096 + (b - 128) * 64 + (c - 128))%N
                          :: code_points r2
                        else match r2 with
                             | [] => [a; b; c]
                             | d :: r3 =>
                                 ((a - 240) * 262144 + (b - 128) * 4096
                                  + (c - 128) * 64 + (d - 128))%N
                                 :: code_points r3
                             end
                    end
           end
  end.

(** One character of a string literal, with [ensure_ascii] on. *)
Definition escape (cp : N) : string :=
  if (cp =? 34)%N then backslash ++ Py.dq
  else if (cp =? 92)%N then backslash ++ backslash
  else if (cp =? 10)%N then backslash ++ "n"
  else if (cp =? 13)%N then backslash ++ "r"
  else if (cp =? 9)%N then backslash ++ "t"
  else if (cp =? 8)%N then backslash ++ "b"
  else if (cp =? 12)%N then backslash ++ "f"
  else if (32 <=? cp)%N && (cp <? 127)%N then byte_of cp
  else if (cp <? 65536)%N then backslash ++ "u" ++ hex4 cp
  else
    let v := (cp - 65536)%N in
    backslash ++ "u" ++ hex4 (55296 + v / 1024)
    ++ backslash ++ "u" ++ hex4 (56320 + v mod 1024).

Definition encode_string (s : string) : string :=
  Py.dq
  ++ String.concat ""
       (map escape
            (code_points (map (fun c => N.of_nat (Py.code c)) (list_ascii_of_string s))))
  ++ Py.dq.

Definition encode_int (z : Z) : string := NilZero.string_of_int (Z.to_int z).

(** The number of decimal places that write [1/den] exactly, if any. *)
Fixpoint decimal_places (fuel : nat) (den : Z) (k : nat) : option nat :=
  if (Z.pow 10 (Z.of_nat k) mod den =? 0)%Z then Some k
  else match fuel with
       | O => None
       | S fuel' => decimal_places fuel' den (S k)
       end.

Fixpoint pad_zeros (width : nat) (s : string) : string :=
  match width - String.length s with
  | O => s
  | S _ => match width with
           | O => s
           | S w => "0" ++ pad_zeros w s
           end
  end.

(** [repr(x)] in positional notation, for a float in the range where Python
    prints one without an exponent.  A rational with no finite decimal
    expansion is the value of no float. *)
Definition encode_float (f : pyfloat) : outcome string :=
  match f with
  | NaN => Return "NaN"
  | PosInf => Return "Infinity"
  | NegInf => Return "-Infinity"
  | Finite q =>
      let r := Qred q in
      match decimal_places 400 (Zpos (Qden r)) 0 with
      | None => Raise (Exn ValueError "not the value of a float")
      | Some k =>
          let k := Nat.max k 1 in
          let scaled := (Z.abs (Qnum r) * Z.pow 10 (Z.of_nat k) / Zpos (Qden r))%Z in
          let whole := (scaled / Z.pow 10 (Z.of_nat k))%Z in
          let part := (scaled mod Z.pow 10 (Z.of_nat k))%Z in
          Return ((if (Qnum r <? 0)%Z then "-" else "")
                  ++ encode_int whole ++ "."
                  ++ pad_zeros k (encode_int part))
      end
  end.

Fixpoint spaces (n : nat) : string :=
  match n with
  | O => EmptyString
  | S n' => String " " (spaces n')
  end.

Definition newline_indent (level : nat) : string := Py.nl ++ spaces (2 * level).

(** The items of a container, one per line. *)
Definition lay_out (opening closing : string) (level : nat) (items : list string) : string :=
  match items with
  | [] => opening ++ closing
  | _ =>
      opening ++ newline_indent (S level)
      ++ Py.join ("," ++ newline_indent (S level)) items
      ++ newline_indent level ++ closing
  end.

(** All the outcomes, or the first failure. *)
Fixpoint collect {A} (l : list (outcome A)) : outcome (list A) :=
  match l with
  | [] => Return []
  | Return a :: r =>
      match collect r with
      | Return rest => Return (a :: rest)
      | Raise e => Raise e
      end
  | Raise e :: _ => Raise e
  end.

Fixpoint encode (level : nat) (v : value) : outcome string :=
  match v with
  | VNone => Return "null"
  | VBool true => Return "true"
  | VBool false => Return "false"
  | VInt z => Return (encode_int z)
  | VFloat f => encode_float f
  | VStr s => Return (encode_string s)
  | VList l =>
      match collect (map (encode (S level)) l) with
      | Return items => Return (lay_out "[" "]" level items)
      | Raise e => Raise e
      end
  | VDict d =>
      match collect
              (map (fun kv : string * value =>
                      match encode (S level) (snd kv) with
                      | Return t => Return (encode_string (fst kv) ++ ": " ++ t)
                      | Raise e => Raise e
                      end) d) with
      | Return items => Return (lay_out "{" "}" level items)
      | Raise e => Raise e
      end
  end.

Definition dumps_indent2 (v : value) : outcome string := encode 0 v.

End Json.

(** ** Environments for the examples *)

Definition reply (content : option string) (audio : option audio_reply) : chat_completion :=
  {| choices := [ {| message := {| content := content; audio := audio |} |} ] |}.

(** An environment whose endpoints answer every request the same way. *)
Definition stub
    (chat : outcome chat_completion) (speech : outcome speech_response)
    (transcript : outcome transcription) : Env :=
  {| chat_completions_create := fun _ => chat;
     audio_speech_create := fun _ => speech;
     audio_transcriptions_create := fun _ => transcript;
     json_loads := Json.loads;
     json_dumps_indent2 := Json.dumps_indent2;
     utcnow_isoformat := "2024-05-01T12:00:00" |}.

Definition connection_error : exn := Exn (LibraryError "APIConnectionError") "Connection error.".

(** Every endpoint fails with [e]. *)
Definition unreachable (e : exn) : Env := stub (Raise e) (Raise e) (Raise e).

(** A reply with the given text, a language attribute when one is given,
    a duration and no words attribute. *)
Definition heard (text : string) (language : option string) : transcription :=
  {| reply_text := text;
     reply_language := match language with
                       | Some l => Attr (Some l)
                       | None => Missing
                       end;
     reply_duration := Attr (Some (Finite (3 # 2)));
     reply_words := Missing |}.

(** A reply as the client builds it when the service left language,
    duration and words out: the three attributes are there, set to [None]. *)
Definition heard_bare (text : string) : transcription :=
  {| reply_text := text;
     reply_language := Attr None;
     reply_duration := Attr None;
     reply_words := Attr None |}.

Definition spoken_reply : audio_reply :=
  {| data := "UklGRiQAAABXQVZF"; transcript := "Matching you now" |}.

(** [raise Exception()] *)
Definition bare_exception : exn := Exn Exception "".

(** A reply text in the form the matching prompt asks for. *)
Definition intent_json : string :=
  "{" ++ Py.quoted "understood_text" ++ ": " ++ Py.quoted "I want to talk about films" ++ ", "
  ++ Py.quoted "extracted_topics" ++ ": [" ++ Py.quoted "Films" ++ "], "
  ++ Py.quoted "generated_hashtags" ++ ": [" ++ Py.quoted "#films" ++ "], "
  ++ Py.quoted "match_intent" ++ ": " ++ Py.quoted "Looking for film fans" ++ "}".

(** The transcription endpoint hears "hello"; the chat endpoint is down. *)
Definition chat_down : Env :=
  stub (Raise connection_error) (Raise connection_error)
       (Return (heard "hello" (Some "english"))).

(** The model answers with the bare number 42 and a spoken reply. *)
Definition scalar_reply : Env :=
  stub (Return (reply (Some "42") (Some spoken_reply)))
       (Raise connection_error) (Raise connection_error).

(** The model answers in prose, with a spoken reply. *)
Definition prose_reply : Env :=
  stub (Return (reply (Some "Happy to help!") (Some spoken_reply)))
       (Raise connection_error) (Raise connection_error).

(** The chat endpoint answers with no choice at all. *)
Definition no_choices : Env :=
  stub (Return {| choices := [] |}) (Raise connection_error) (Raise connection_error).

(** What [l[0]] raises on an empty list. *)
Definition index_error : exn := Exn IndexError "list index out of range".

(** The four keys [process_voice_input_for_matching] writes over a decoded
    object. *)
Definition reply_keys : list string :=
  [ "audio_response"; "text_response"; "audio_transcript"; "processing_time" ].

(** The model answers with a JSON array instead of an object. *)
Definition array_reply : Env :=
  stub (Return (reply (Some "[1, 2]") None))
       (Raise connection_error) (Raise connection_error).

(** An environment whose [json.dumps] refuses what it is given. *)
Definition dumps_refuses (e : exn) : Env :=
  {| chat_completions_create := fun _ => Return (reply (Some "{}") None);
     audio_speech_create := fun _ => Raise connection_error;
     audio_transcriptions_create := fun _ => Raise connection_error;
     json_loads := Json.loads;
     json_dumps_indent2 := fun _ => Raise e;
     utcnow_isoformat := "2024-05-01T12:00:00" |}.

Definition not_serializable : exn :=
  Exn TypeError "Object of type datetime is not JSON serializable".

(** The transcription endpoint hears "hello"; the model answers with [text]. *)
Definition hello_then (text : string) : Env :=
  stub (Return (reply (Some text) None)) (Raise connection_error)
       (Return (heard "hello" (Some "english"))).

(** A topic reply whose hashtags entry is null. *)
Definition null_hashtags_json : string := "{" ++ Py.quoted "hashtags" ++ ": null}".

(** ** What the claims speak of *)

(** The prefix of a tag before its first hyphen. *)
Fixpoint before_hyphen (s : string) : string :=
  match s with
  | EmptyString => EmptyString
  | String c r => if Ascii.eqb c hyphen then EmptyString else String c (before_hyphen r)
  end.

(** The language a transcription request carries for a given tag. *)
Definition language_parameter (language : string) : option string :=
  if Py.truthy_str language then Some (before_hyphen language) else None.

(** A dictionary holds every key of a list. *)
Definition has_fields (fields : list string) (d : dict) : bool :=
  forallb (fun k => has_key k d) fields.

(** The result shapes: for each method the keys of the record it builds
    from a reply that has everything asked for.  For
    [process_voice_input_for_matching] these are the four entries of the
    JSON object the prompt asks for and the four entries added to it; for
    [extract_topics_and_hashtags] the seven entries of the JSON object the
    prompt asks for; for [health_check] the entries of the healthy record. *)
Definition matching_shape : list string :=
  [ "understood_text"; "extracted_topics"; "generated_hashtags"; "match_intent";
    "audio_response"; "text_response"; "audio_transcript"; "processing_time" ].

Definition moderation_shape : list string :=
  [ "ai_response"; "moderation_type"; "suggestions"; "timestamp"; "participants" ].

Definition extraction_shape : list string :=
  [ "main_topics"; "hashtags"; "category"; "sentiment";
    "conversation_style"; "confidence"; "summary" ].

Definition health_shape : list string := [ "status"; "service"; "model"; "timestamp" ].

(** The claims as the specification words them, for the inputs that refute
    them. *)

(** Every self-suppressing method returns a record with every field of its
    declared shape, whatever the input. *)
Definition complete_on_every_input : Prop :=
  forall E : Env,
    (forall a f l, exists d,
        result (process_voice_input_for_matching E a f l) = Return d
        /\ has_fields matching_shape d = true) /\
    (forall a t c p m, exists d,
        result (moderate_room_conversation E a t c p m) = Return d
        /\ has_fields moderation_shape d = true) /\
    (forall t c l, exists d,
        result (extract_topics_and_hashtags E t c l) = Return d
        /\ has_fields extraction_shape d = true) /\
    (exists d, result (health_check E) = Return d /\ has_fields health_shape d = true).

(** A failed probe is reported with a non-empty error string. *)
Definition unhealthy_with_description : Prop :=
  forall (E : Env) (e : exn),
    audio_speech_create E health_probe = Raise e ->
    exists d err,
      result (health_check E) = Return d
      /\ dict_get "status" d = Some (VStr "unhealthy")
      /\ dict_get "error" d = Some (VStr err) /\ err <> ""
      /\ has_key "timestamp" d = true.

(** Values [len] accepts. *)
Definition sized (v : value) : bool :=
  match v with
  | VStr _ | VList _ | VDict _ => true
  | _ => false
  end.

(** The record [process_voice_for_hashtags] returns from its [except]
    clause, by its entries. *)
Definition empty_with_error (d : dict) : Prop :=
  dict_get "transcription" d = Some (VStr "")
  /\ dict_get "main_topics" d = Some (VList [])
  /\ dict_get "hashtags" d = Some (VList [])
  /\ has_key "error" d = true.

(** A failure of either stage, an error field in the topic result included,
    ends in the empty record with an error. *)
Definition stage_failures_give_empty_result : Prop :=
  forall (E : Env) (a : file_arg) (f l : string),
    ((exists e, result (speech_to_text E a l) = Raise e)
     \/ (exists r spoken,
            result (speech_to_text E a l) = Return r
            /\ dict_get "text" r = Some (VStr spoken)
            /\ ((exists e,
                    fst (extract_topics_and_hashtags E spoken (Some (voice_context l f))
                           "en-US" (sent (speech_to_text E a l))) = Raise e)
                \/ (exists t,
                       fst (extract_topics_and_hashtags E spoken (Some (voice_context l f))
                              "en-US" (sent (speech_to_text E a l))) = Return t
                       /\ has_key "error" t = true)))) ->
    exists d,
      result (process_voice_for_hashtags (service E) a f l) = Return d
      /\ empty_with_error d.

(** Every reply whose text is well-formed JSON and that carries audio gives
    that audio back under audio_response. *)
Definition audio_kept_for_every_json : Prop :=
  forall (E : Env) (a : audio_arg) (f l : string)
         (r : chat_completion) (c : chat_choice) (rest : list chat_choice)
         (text : string) (v : value) (au : audio_reply),
    chat_completions_create E (matching_request (to_base64 a) f l) = Return r ->
    choices r = c :: rest ->
    content (message c) = Some text ->
    json_loads E text = Return v ->
    audio (message c) = Some au ->
    exists out,
      result (process_voice_input_for_matching E a f l) = Return out
      /\ dict_get "audio_response" out = Some (VStr (data au)).

(** Bytes that spell whitespace characters only. *)
Definition only_whitespace_bytes (l : list ascii) : Prop :=
  Py.whitespace_only (string_of_list_ascii l).

(** * Properties *)

(** ** Running a method *)

(** A [try] whose handler returns a record never raises. *)
Lemma try_except_returns {A} (body : M A) (handler : exn -> A) (log : list event) :
  exists a log', try_except body (fun e => ret (handler e)) log = (Return a, log').
Proof.
  unfold try_except, ret.
  destruct (body log) as [[a | e] log']; eauto.
Qed.

(** ** Strings *)

Lemma lower_upper_char (c : ascii) : Py.ascii_lower (Py.ascii_upper c) = Py.ascii_lower c.
Proof. destruct c as [[] [] [] [] [] [] [] []]; reflexivity. Qed.

Lemma lower_upper (s : string) : Py.lower (Py.upper s) = Py.lower s.
Proof.
  induction s as [| c r IH]; simpl.
  - reflexivity.
  - now rewrite lower_upper_char, IH.
Qed.

Lemma split_head (s : string) :
  exists t, Py.split hyphen s = before_hyphen s :: t.
Proof.
  induction s as [| c r [t IH]]; simpl.
  - now exists [].
  - destruct (Ascii.eqb c hyphen).
    + eexists; reflexivity.
    + rewrite IH. eexists; reflexivity.
Qed.

Lemma contains_step (needle : string) (c : ascii) (s : string) :
  Py.contains needle (String c s)
  = if String.prefix needle (String c s) then true else Py.contains needle s.
Proof. reflexivity. Qed.

Lemma before_hyphen_clean (s : string) : Py.contains "-" (before_hyphen s) = false.
Proof.
  induction s as [| c r IH]; cbn [before_hyphen].
  - reflexivity.
  - destruct (Ascii.eqb c hyphen) eqn:Hc.
    + reflexivity.
    + rewrite contains_step. cbn [String.prefix].
      destruct (ascii_dec "-" c) as [Heq | Hneq].
      * subst c. discriminate Hc.
      * exact IH.
Qed.

Lemma before_hyphen_prefix (s : string) :
  s = before_hyphen s \/ exists rest, s = before_hyphen s ++ "-" ++ rest.
Proof.
  induction s as [| c r IH]; simpl.
  - now left.
  - destruct (Ascii.eqb c hyphen) eqn:Hc.
    + right. exists r. apply Ascii.eqb_eq in Hc. now subst c.
    + destruct IH as [IH | [rest IH]].
      * left. now f_equal.
      * right. exists rest. cbn [String.append]. now f_equal.
Qed.

Lemma request_language_run (language : string) (log : list event) :
  request_language language log = (Return (language_parameter language), log).
Proof.
  unfold request_language, language_parameter.
  destruct language as [| c r]; [reflexivity |].
  cbn [Py.truthy_str].
  destruct (split_head (String c r)) as [t Ht].
  unfold bind. rewrite Ht. reflexivity.
Qed.

(** ** speech_to_text and text_to_speech *)

(** One request goes out; its outcome decides the result. *)
Lemma speech_to_text_run (E : Env) (audio_file : file_arg) (language : string)
    (log : list event) :
  speech_to_text E audio_file language log
  = (match audio_transcriptions_create E
             (stt_request (as_buffer audio_file) (language_parameter language)) with
     | Return r => Return (transcription_record language r)
     | Raise e => Raise (stt_failure e)
     end,
     (log ++ [SentTranscription
                (stt_request (as_buffer audio_file) (language_parameter language))])%list).
Proof.
  unfold speech_to_text, try_except, bind.
  rewrite request_language_run.
  unfold send_transcription, ret, raise.
  destruct (audio_transcriptions_create E _); reflexivity.
Qed.

Lemma text_to_speech_run (E : Env) (text voice : string) (speed : pyfloat)
    (log : list event) :
  text_to_speech E text voice speed log
  = (match audio_speech_create E (tts_request text voice speed) with
     | Return r => Return (speech_content r)
     | Raise e => Raise e
     end,
     (log ++ [SentSpeech (tts_request text voice speed)])%list).
Proof.
  unfold text_to_speech, try_except, bind, send_speech, ret, raise.
  destruct (audio_speech_create E _); reflexivity.
Qed.

(** C6: when the remote call fails, [text_to_speech] raises the very
    exception the call raised and [speech_to_text] raises an exception whose
    description is that of the failure behind the words
    "STT processing failed: "; neither returns a substitute result. *)
Theorem stt_and_tts_propagate (E : Env) :
  (forall text voice speed e,
      audio_speech_create E (tts_request text voice speed) = Raise e ->
      result (text_to_speech E text voice speed) = Raise e) /\
  (forall audio_file language e,
      audio_transcriptions_create E
        (stt_request (as_buffer audio_file) (language_parameter language)) = Raise e ->
      result (speech_to_text E audio_file language)
      = Raise (Exn Exception ("STT processing failed: " ++ exn_str e))).
Proof.
  split.
  - intros text voice speed e H.
    unfold result, run. rewrite text_to_speech_run, H. reflexivity.
  - intros audio_file language e H.
    unfold result, run. rewrite speech_to_text_run, H. reflexivity.
Qed.

Lemma stt_and_tts_propagate_unreachable :
  result (text_to_speech (unreachable connection_error) "Hello" "alloy" (Finite 1)) = Raise connection_error
  /\ result (speech_to_text (unreachable connection_error) (FileBytes []) "en-US")
     = Raise (Exn Exception "STT processing failed: Connection error.").
Proof.
  split.
  - apply (proj1 (stt_and_tts_propagate (unreachable connection_error))). reflexivity.
  - apply (proj2 (stt_and_tts_propagate (unreachable connection_error))
             (FileBytes []) "en-US" connection_error).
    reflexivity.
Defined.

(** X20: for a non-empty language tag the transcription request carries
    the part of the tag before its first hyphen ("en" for "en-US", "fr" for
    "fr").  The language of the returned record is the tag as it was passed
    when the reply object has no language attribute, the detected language
    when the attribute holds one, and None when the attribute is None. *)
Theorem speech_to_text_language (E : Env) (audio_file : file_arg) :
  (forall language, language <> "" ->
     exists req,
       sent (speech_to_text E audio_file language) = [SentTranscription req] /\
       stt_language req = Some (before_hyphen language) /\
       Py.contains "-" (before_hyphen language) = false /\
       (language = before_hyphen language
        \/ exists rest, language = before_hyphen language ++ "-" ++ rest) /\
       (forall r, audio_transcriptions_create E req = Return r ->
          exists d,
            result (speech_to_text E audio_file language) = Return d /\
            (reply_language r = Missing -> dict_get "language" d = Some (VStr language)) /\
            (forall detected, reply_language r = Attr (Some detected) ->
                              dict_get "language" d = Some (VStr detected)) /\
            (reply_language r = Attr None -> dict_get "language" d = Some VNone))) /\
  (exists req, sent (speech_to_text E audio_file "en-US") = [SentTranscription req] /\
               stt_language req = Some "en") /\
  (exists req, sent (speech_to_text E audio_file "fr") = [SentTranscription req] /\
               stt_language req = Some "fr").
Proof.
  assert (general : forall language, language <> "" ->
     exists req,
       sent (speech_to_text E audio_file language) = [SentTranscription req] /\
       stt_language req = Some (before_hyphen language) /\
       Py.contains "-" (before_hyphen language) = false /\
       (language = before_hyphen language
        \/ exists rest, language = before_hyphen language ++ "-" ++ rest) /\
       (forall r, audio_transcriptions_create E req = Return r ->
          exists d,
            result (speech_to_text E audio_file language) = Return d /\
            (reply_language r = Missing -> dict_get "language" d = Some (VStr language)) /\
            (forall detected, reply_language r = Attr (Some detected) ->
                              dict_get "language" d = Some (VStr detected)) /\
            (reply_language r = Attr None -> dict_get "language" d = Some VNone))).
  { intros language Hne.
    exists (stt_request (as_buffer audio_file) (language_parameter language)).
    unfold sent, result, run. rewrite speech_to_text_run.
    split; [reflexivity |].
    split; [unfold language_parameter; destruct language; [congruence | reflexivity] |].
    split; [apply before_hyphen_clean |].
    split; [apply before_hyphen_prefix |].
    intros r Hr. rewrite Hr. eexists; split; [reflexivity |].
    unfold transcription_record.
    split; [| split].
    - intros H. now rewrite H.
    - intros detected H. now rewrite H.
    - intros H. now rewrite H. }
  split; [exact general |].
  split.
  - destruct (general "en-US") as [req [Hs [Hl _]]]; [discriminate |].
    exists req. split; assumption.
  - destruct (general "fr") as [req [Hs [Hl _]]]; [discriminate |].
    exists req. split; assumption.
Qed.

Lemma speech_to_text_language_en_US :
  exists req,
    sent (speech_to_text (stub (Raise connection_error) (Raise connection_error)
                               (Return (heard "good morning" None)))
                         (FileBytes []) "en-US")
    = [SentTranscription req] /\
    stt_language req = Some "en" /\
    Py.contains "-" "en" = false /\
    ("en-US" = "en" \/ exists rest, "en-US" = "en" ++ "-" ++ rest) /\
    (forall r,
        audio_transcriptions_create
          (stub (Raise connection_error) (Raise connection_error)
                (Return (heard "good morning" None))) req = Return r ->
        exists d,
          result (speech_to_text (stub (Raise connection_error) (Raise connection_error)
                                       (Return (heard "good morning" None)))
                                 (FileBytes []) "en-US") = Return d /\
          (reply_language r = Missing -> dict_get "language" d = Some (VStr "en-US")) /\
          (forall detected, reply_language r = Attr (Some detected) ->
                            dict_get "language" d = Some (VStr detected)) /\
          (reply_language r = Attr None -> dict_get "language" d = Some VNone)).
Proof.
  apply (proj1 (speech_to_text_language
                  (stub (Raise connection_error) (Raise connection_error)
                        (Return (heard "good morning" None)))
                  (FileBytes [])) "en-US").
  discriminate.
Defined.

(** C7 at a reply whose language the service left out.  The client hands
    such a reply over with its language attribute set to None; [getattr]
    finds the attribute, so the default is not used and the language of the
    returned record is None, not the tag "en-US" that was passed. *)
Lemma speech_to_text_language_left_out :
  result (speech_to_text (stub (Raise connection_error) (Raise connection_error)
                               (Return (heard_bare "good morning")))
                         (FileBytes []) "en-US")
  = Return [ ("text", VStr "good morning");
             ("language", VNone);
             ("duration", VNone);
             ("confidence", VFloat (Finite (95 # 100)));
             ("words", VList []) ].
Proof. reflexivity. Qed.

(** ** _extract_suggestions *)

Lemma tags_distinct :
  suggestion_tag <> topic_tag /\ suggestion_tag <> fact_tag /\ topic_tag <> fact_tag.
Proof. repeat split; discriminate. Qed.

(** C8: [_extract_suggestions] is a function of its text alone; each tag
    is in the result exactly when its keyword occurs in the lower-cased text
    ("suggest"; "topic"; "fact" or "info"), so letter case does not matter;
    "I suggest a new topic" gives the suggestion tag and the topic tag, and
    "hello" gives the empty list. *)
Theorem extract_suggestions_keywords :
  (forall t, In suggestion_tag (_extract_suggestions t)
             <-> Py.contains "suggest" (Py.lower t) = true) /\
  (forall t, In topic_tag (_extract_suggestions t)
             <-> Py.contains "topic" (Py.lower t) = true) /\
  (forall t, In fact_tag (_extract_suggestions t)
             <-> Py.contains "fact" (Py.lower t) || Py.contains "info" (Py.lower t) = true) /\
  (forall t tag, In tag (_extract_suggestions t) ->
                 tag = suggestion_tag \/ tag = topic_tag \/ tag = fact_tag) /\
  (forall t, _extract_suggestions (Py.upper t) = _extract_suggestions t) /\
  (forall t1 t2, Py.lower t1 = Py.lower t2 ->
                 _extract_suggestions t1 = _extract_suggestions t2) /\
  _extract_suggestions "I suggest a new topic" = [suggestion_tag; topic_tag] /\
  _extract_suggestions "hello" = [].
Proof.
  destruct tags_distinct as [Hst [Hsf Htf]].
  assert (member : forall t tag,
             In tag (_extract_suggestions t) <->
             (tag = suggestion_tag /\ Py.contains "suggest" (Py.lower t) = true)
             \/ (tag = topic_tag /\ Py.contains "topic" (Py.lower t) = true)
             \/ (tag = fact_tag
                 /\ Py.contains "fact" (Py.lower t) || Py.contains "info" (Py.lower t) = true)).
  { intros t tag. unfold _extract_suggestions.
    destruct (Py.contains "suggest" (Py.lower t));
      destruct (Py.contains "topic" (Py.lower t));
      destruct (Py.contains "fact" (Py.lower t) || Py.contains "info" (Py.lower t));
      cbn [app In]; intuition (try congruence; try discriminate; auto). }
  repeat split.
  - intros H. apply member in H.
    destruct H as [[_ H] | [[H _] | [H _]]]; [exact H | congruence | congruence].
  - intros H. apply member. left. now split.
  - intros H. apply member in H.
    destruct H as [[H _] | [[_ H] | [H _]]]; [congruence | exact H | congruence].
  - intros H. apply member. right. left. now split.
  - intros H. apply member in H.
    destruct H as [[H _] | [[H _] | [_ H]]]; [congruence | congruence | exact H].
  - intros H. apply member. right. right. now split.
  - intros t tag H. apply member in H. tauto.
  - intros t. unfold _extract_suggestions. now rewrite lower_upper.
  - intros t1 t2 H. unfold _extract_suggestions. now rewrite H.
Qed.

Lemma extract_suggestions_upper_case :
  _extract_suggestions "Any TOPIC?" = _extract_suggestions "any topic?".
Proof.
  apply (proj1 (proj2 (proj2 (proj2 (proj2 (proj2 extract_suggestions_keywords)))))).
  reflexivity.
Defined.

(** ** health_check *)

Lemma health_check_run (E : Env) (log : list event) :
  health_check E log
  = (Return (match audio_speech_create E health_probe with
             | Return _ =>
                 [ ("status", VStr "healthy");
                   ("service", VStr "openai_tts");
                   ("model", VStr "tts-1");
                   ("timestamp", VStr (utcnow_isoformat E)) ]
             | Raise e =>
                 [ ("status", VStr "unhealthy");
                   ("service", VStr "openai_gpt4o_audio");
                   ("error", VStr (exn_str e));
                   ("timestamp", VStr (utcnow_isoformat E)) ]
             end),
     (log ++ [SentSpeech health_probe])%list).
Proof.
  unfold health_check, try_except, bind, send_speech, ret.
  destruct (audio_speech_create E health_probe); reflexivity.
Qed.

(** C9, as the code has it: [health_check] never raises; when the probe
    succeeds the record has status "healthy"; when the probe raises [e] the
    record has status "unhealthy", the error [str(e)] (which is non-empty
    whenever the exception has a description) and a timestamp. *)
Theorem health_check_status (E : Env) :
  (forall log, exists d log', health_check E log = (Return d, log')) /\
  (forall r, audio_speech_create E health_probe = Return r ->
             exists d, result (health_check E) = Return d
                       /\ dict_get "status" d = Some (VStr "healthy")) /\
  (forall e, audio_speech_create E health_probe = Raise e ->
             exists d, result (health_check E) = Return d
                       /\ dict_get "status" d = Some (VStr "unhealthy")
                       /\ dict_get "error" d = Some (VStr (exn_str e))
                       /\ dict_get "timestamp" d = Some (VStr (utcnow_isoformat E))
                       /\ (exn_str e <> "" -> exists err, dict_get "error" d = Some (VStr err)
                                                          /\ err <> "")).
Proof.
  repeat split.
  - intros log. rewrite health_check_run. eauto.
  - intros r H. unfold result, run. rewrite health_check_run, H.
    eexists; split; reflexivity.
  - intros e H. unfold result, run. rewrite health_check_run, H.
    eexists. split; [reflexivity |].
    split; [reflexivity |]. split; [reflexivity |]. split; [reflexivity |].
    intros Hne. exists (exn_str e). split; [reflexivity | exact Hne].
Qed.

Lemma health_check_status_unreachable :
  exists d, result (health_check (unreachable connection_error)) = Return d
            /\ dict_get "status" d = Some (VStr "unhealthy")
            /\ dict_get "error" d = Some (VStr "Connection error.")
            /\ dict_get "timestamp" d = Some (VStr "2024-05-01T12:00:00")
            /\ ("Connection error." <> "" ->
                exists err, dict_get "error" d = Some (VStr err) /\ err <> "").
Proof.
  apply (proj2 (proj2 (health_check_status (unreachable connection_error)))
           connection_error).
  reflexivity.
Defined.

(** C9 as worded fails when the exception has no description: the probe
    raises [Exception()], and the error string of the record is empty. *)
Lemma health_check_empty_error :
  result (health_check (unreachable bare_exception))
  = Return [ ("status", VStr "unhealthy");
             ("service", VStr "openai_gpt4o_audio");
             ("error", VStr "");
             ("timestamp", VStr "2024-05-01T12:00:00") ]
  /\ ~ unhealthy_with_description.
Proof.
  split; [reflexivity |].
  intros claim.
  destruct (claim (unreachable bare_exception) bare_exception eq_refl)
    as [d [err [Hd [_ [Herr [Hne _]]]]]].
  unfold result, run in Hd. rewrite health_check_run in Hd. cbn in Hd.
  injection Hd as <-. cbn in Herr. congruence.
Qed.

(** ** Dictionaries *)

Lemma dict_get_set_same (k : string) (v : value) (d : dict) :
  dict_get k (dict_set k v d) = Some v.
Proof.
  induction d as [| [k' v'] r IH]; cbn [dict_set dict_get].
  - now rewrite String.eqb_refl.
  - destruct (String.eqb k k') eqn:Hk; cbn [dict_get].
    + now rewrite String.eqb_refl.
    + now rewrite Hk.
Qed.

Lemma dict_get_set_other (k k' : string) (v : value) (d : dict) :
  k <> k' -> dict_get k (dict_set k' v d) = dict_get k d.
Proof.
  intros Hne. apply String.eqb_neq in Hne.
  induction d as [| [k'' v''] r IH]; cbn [dict_set dict_get].
  - now rewrite Hne.
  - destruct (String.eqb k' k'') eqn:Hk; cbn [dict_get].
    + apply String.eqb_eq in Hk. subst k''. now rewrite Hne.
    + now rewrite IH.
Qed.

(** After [d.update(reply_fields)] the audio entry is the reply's. *)
Lemma audio_response_after_update (E : Env) (m : chat_message) (d : dict) :
  dict_get "audio_response" (dict_update d (reply_fields E m)) = Some (audio_data_or_None m).
Proof.
  unfold dict_update, reply_fields. cbn [fold_left fst snd].
  rewrite !dict_get_set_other by discriminate.
  apply dict_get_set_same.
Qed.

(** ** process_voice_input_for_matching *)

Section Matching.

Variables (E : Env) (audio_data : audio_arg) (audio_format language : string).

Let request : chat_request :=
  matching_request (to_base64 audio_data) audio_format language.

Lemma matching_remote_failure (e : exn) (log : list event) :
  chat_completions_create E request = Raise e ->
  process_voice_input_for_matching E audio_data audio_format language log
  = (Return (matching_failure e), (log ++ [SentChat request])%list).
Proof.
  intros H. unfold process_voice_input_for_matching, try_except, bind, send_chat.
  fold request. now rewrite H.
Qed.

Variables (r : chat_completion) (c : chat_choice) (rest : list chat_choice).
Hypothesis replied : chat_completions_create E request = Return r.
Hypothesis first_choice : choices r = c :: rest.

Lemma matching_no_text (log : list event) :
  truthy_opt_str (content (message c)) = false ->
  process_voice_input_for_matching E audio_data audio_format language log
  = (Return (reply_fields E (message c)), (log ++ [SentChat request])%list).
Proof.
  intros H. unfold process_voice_input_for_matching, try_except, bind, send_chat.
  fold request. rewrite replied, first_choice. cbn [index0 ret].
  unfold truthy_opt_str in H.
  destruct (content (message c)) as [text |]; [rewrite H |]; reflexivity.
Qed.

Variable text : string.
Hypothesis has_text : content (message c) = Some text.
Hypothesis text_not_empty : text <> "".

Lemma matching_object (d : dict) (log : list event) :
  json_loads E text = Return (VDict d) ->
  process_voice_input_for_matching E audio_data audio_format language log
  = (Return (dict_update d (reply_fields E (message c))),
     (log ++ [SentChat request])%list).
Proof.
  intros H. unfold process_voice_input_for_matching, try_except, bind, send_chat.
  fold request. rewrite replied, first_choice. cbn [index0 ret].
  rewrite has_text.
  destruct text as [| ch tl]; [congruence |]. cbn [Py.truthy_str].
  unfold try_except_JSONDecodeError, lift. rewrite H. reflexivity.
Qed.

Lemma matching_not_object (v : value) (log : list event) :
  json_loads E text = Return v ->
  (forall d, v <> VDict d) ->
  process_voice_input_for_matching E audio_data audio_format language log
  = (Return (matching_failure (no_attribute v "update")),
     (log ++ [SentChat request])%list).
Proof.
  intros H Hv. unfold process_voice_input_for_matching, try_except, bind, send_chat.
  fold request. rewrite replied, first_choice. cbn [index0 ret].
  rewrite has_text.
  destruct text as [| ch tl]; [congruence |]. cbn [Py.truthy_str].
  unfold try_except_JSONDecodeError, lift. rewrite H.
  destruct v; try reflexivity. now elim (Hv d).
Qed.

End Matching.

(** C3: when the call succeeds and the reply has no text (absent or
    empty), the record returned holds exactly audio_response, text_response,
    audio_transcript and processing_time, and none of understood_text,
    extracted_topics, generated_hashtags, match_intent. *)
Theorem matching_without_text
    (E : Env) (audio_data : audio_arg) (audio_format language : string)
    (r : chat_completion) (c : chat_choice) (rest : list chat_choice) :
  chat_completions_create E
    (matching_request (to_base64 audio_data) audio_format language) = Return r ->
  choices r = c :: rest ->
  truthy_opt_str (content (message c)) = false ->
  exists d,
    result (process_voice_input_for_matching E audio_data audio_format language) = Return d
    /\ keys d = ["audio_response"; "text_response"; "audio_transcript"; "processing_time"]
    /\ dict_get "understood_text" d = None
    /\ dict_get "extracted_topics" d = None
    /\ dict_get "generated_hashtags" d = None
    /\ dict_get "match_intent" d = None.
Proof.
  intros Hr Hc Ht.
  exists (reply_fields E (message c)).
  unfold result, run.
  rewrite (matching_no_text E audio_data audio_format language r c rest Hr Hc [] Ht).
  repeat split.
Qed.

Lemma matching_without_text_audio_only :
  exists d,
    result (process_voice_input_for_matching
              (stub (Return (reply None (Some spoken_reply)))
                    (Raise connection_error) (Raise connection_error))
              (AudioText "UklGRg==") "wav" "en-US") = Return d
    /\ keys d = ["audio_response"; "text_response"; "audio_transcript"; "processing_time"]
    /\ dict_get "understood_text" d = None
    /\ dict_get "extracted_topics" d = None
    /\ dict_get "generated_hashtags" d = None
    /\ dict_get "match_intent" d = None.
Proof.
  apply (matching_without_text
           (stub (Return (reply None (Some spoken_reply)))
                 (Raise connection_error) (Raise connection_error))
           (AudioText "UklGRg==") "wav" "en-US"
           (reply None (Some spoken_reply))
           {| message := {| content := None; audio := Some spoken_reply |} |} []);
    reflexivity.
Defined.

(** X21: for a reply whose text decodes to a JSON object and that carries
    audio, the record returned has under audio_response the audio payload of
    the reply, unchanged. *)
Theorem matching_object_keeps_audio
    (E : Env) (audio_data : audio_arg) (audio_format language : string)
    (r : chat_completion) (c : chat_choice) (rest : list chat_choice)
    (text : string) (d : dict) (a : audio_reply) :
  chat_completions_create E
    (matching_request (to_base64 audio_data) audio_format language) = Return r ->
  choices r = c :: rest ->
  content (message c) = Some text ->
  text <> "" ->
  json_loads E text = Return (VDict d) ->
  audio (message c) = Some a ->
  exists out,
    result (process_voice_input_for_matching E audio_data audio_format language) = Return out
    /\ dict_get "audio_response" out = Some (VStr (data a)).
Proof.
  intros Hr Hc Ht Hne Hd Ha.
  exists (dict_update d (reply_fields E (message c))).
  unfold result, run.
  rewrite (matching_object E audio_data audio_format language r c rest Hr Hc text Ht Hne d [] Hd).
  split; [reflexivity |].
  rewrite audio_response_after_update. unfold audio_data_or_None. now rewrite Ha.
Qed.

Lemma matching_object_keeps_audio_films :
  exists out,
    result (process_voice_input_for_matching
              (stub (Return (reply (Some intent_json) (Some spoken_reply)))
                    (Raise connection_error) (Raise connection_error))
              (AudioBytes [Byte.x52; Byte.x49; Byte.x46; Byte.x46]) "wav" "en-US") = Return out
    /\ dict_get "audio_response" out = Some (VStr "UklGRiQAAABXQVZF").
Proof.
  apply (matching_object_keeps_audio
           (stub (Return (reply (Some intent_json) (Some spoken_reply)))
                 (Raise connection_error) (Raise connection_error))
           (AudioBytes [Byte.x52; Byte.x49; Byte.x46; Byte.x46]) "wav" "en-US"
           (reply (Some intent_json) (Some spoken_reply))
           {| message := {| content := Some intent_json; audio := Some spoken_reply |} |} []
           intent_json
           [ ("understood_text", VStr "I want to talk about films");
             ("extracted_topics", VList [VStr "Films"]);
             ("generated_hashtags", VList [VStr "#films"]);
             ("match_intent", VStr "Looking for film fans") ]
           spoken_reply);
    try reflexivity.
  discriminate.
Defined.

(** C10 at a reply whose text is well-formed JSON but not an object: the
    text "42" decodes to the integer 42, which has no [update]; the audio
    that line 127 is there to attach is not attached, the [except] clause
    takes over, and the record returned has audio_response None and the
    AttributeError as its text_response, although the reply carried audio. *)
Lemma matching_scalar_reply_drops_audio :
  Json.loads "42" = Return (VInt 42)
  /\ result (process_voice_input_for_matching scalar_reply (AudioText "UklGRg==") "wav" "en-US")
     = Return
         [ ("understood_text", VStr "Sorry, I didn't understand what you said");
           ("extracted_topics", VList [VStr "General topic"]);
           ("generated_hashtags", VList [VStr "#general"]);
           ("match_intent", VStr "General chat");
           ("audio_response", VNone);
           ("text_response",
            VStr "Error processing voice input: 'int' object has no attribute 'update'");
           ("error", VStr "'int' object has no attribute 'update'") ]
  /\ ~ audio_kept_for_every_json.
Proof.
  split; [reflexivity |]. split; [reflexivity |].
  intros claim.
  destruct (claim scalar_reply (AudioText "UklGRg==") "wav" "en-US"
              (reply (Some "42") (Some spoken_reply))
              {| message := {| content := Some "42"; audio := Some spoken_reply |} |} []
              "42" (VInt 42) spoken_reply
              eq_refl eq_refl eq_refl eq_refl eq_refl) as [out [Hout Haudio]].
  vm_compute in Hout. injection Hout as <-. discriminate Haudio.
Qed.

(** ** moderate_room_conversation and extract_topics_and_hashtags *)

Lemma moderation_remote_failure
    (E : Env) (audio_data : option audio_arg) (text_input : option string)
    (conversation_context : option (list value))
    (room_participants : option (list string)) (moderation_mode : string)
    (e : exn) (log : list event) :
  chat_completions_create E
    (moderation_request
       (moderation_messages audio_data text_input conversation_context
                            room_participants moderation_mode)) = Raise e ->
  fst (moderate_room_conversation E audio_data text_input conversation_context
                                  room_participants moderation_mode log)
  = Return (moderation_failure e).
Proof.
  intros H. unfold moderate_room_conversation, try_except, bind, send_chat.
  now rewrite H.
Qed.

Lemma extraction_remote_failure
    (E : Env) (text : string) (context : option dict) (language context_info : string)
    (e : exn) (log : list event) :
  context_info_of E context = Return context_info ->
  chat_completions_create E (extraction_request text language context_info) = Raise e ->
  fst (extract_topics_and_hashtags E text context language log)
  = Return (extraction_failure e).
Proof.
  intros Hc H. unfold extract_topics_and_hashtags, try_except, bind, lift, send_chat.
  now rewrite Hc, H.
Qed.


(** C1, as the code has it: none of the four self-suppressing methods
    raises, on any input.  When the remote call raises [e], each returns the
    record of its [except] clause, with [str(e)] under error:
    [extract_topics_and_hashtags] a record with the seven entries of its
    result shape; [process_voice_input_for_matching] a record with
    understood_text, extracted_topics, generated_hashtags, match_intent,
    audio_response (None) and text_response, but without the
    audio_transcript and processing_time that its records built from a reply
    have; [health_check] a record with status "unhealthy", service and
    timestamp, without the model entry of the healthy record;
    [moderate_room_conversation] a minimal record whose only entries are
    ai_response (text and audio) and error. *)
Theorem self_suppressing_methods (E : Env) :
  (forall a f l log,
      exists d log', process_voice_input_for_matching E a f l log = (Return d, log')) /\
  (forall a t c p m log,
      exists d log', moderate_room_conversation E a t c p m log = (Return d, log')) /\
  (forall t c l log,
      exists d log', extract_topics_and_hashtags E t c l log = (Return d, log')) /\
  (forall log, exists d log', health_check E log = (Return d, log')) /\
  (forall a f l e,
      chat_completions_create E (matching_request (to_base64 a) f l) = Raise e ->
      exists d,
        result (process_voice_input_for_matching E a f l) = Return d
        /\ keys d = [ "understood_text"; "extracted_topics"; "generated_hashtags";
                      "match_intent"; "audio_response"; "text_response"; "error" ]
        /\ dict_get "understood_text" d
           = Some (VStr "Sorry, I didn't understand what you said")
        /\ dict_get "extracted_topics" d = Some (VList [VStr "General topic"])
        /\ dict_get "generated_hashtags" d = Some (VList [VStr "#general"])
        /\ dict_get "match_intent" d = Some (VStr "General chat")
        /\ dict_get "audio_response" d = Some VNone
        /\ dict_get "text_response" d
           = Some (VStr ("Error processing voice input: " ++ exn_str e))
        /\ dict_get "error" d = Some (VStr (exn_str e))
        /\ dict_get "audio_transcript" d = None
        /\ dict_get "processing_time" d = None) /\
  (forall t c l ci e,
      context_info_of E c = Return ci ->
      chat_completions_create E (extraction_request t l ci) = Raise e ->
      exists d,
        result (extract_topics_and_hashtags E t c l) = Return d
        /\ keys d = (extraction_shape ++ ["error"])%list
        /\ has_fields extraction_shape d = true
        /\ dict_get "main_topics" d = Some (VList [VStr "general"])
        /\ dict_get "hashtags" d = Some (VList [VStr "#general"; VStr "#chat"])
        /\ dict_get "category" d = Some (VStr "other")
        /\ dict_get "sentiment" d = Some (VStr "neutral")
        /\ dict_get "conversation_style" d = Some (VStr "casual")
        /\ dict_get "confidence" d = Some (VFloat (Finite (1 # 10)))
        /\ dict_get "summary" d = Some (VStr "Could not analyze topics")
        /\ dict_get "error" d = Some (VStr (exn_str e))) /\
  (forall e,
      audio_speech_create E health_probe = Raise e ->
      exists d,
        result (health_check E) = Return d
        /\ keys d = ["status"; "service"; "error"; "timestamp"]
        /\ dict_get "status" d = Some (VStr "unhealthy")
        /\ dict_get "service" d = Some (VStr "openai_gpt4o_audio")
        /\ dict_get "error" d = Some (VStr (exn_str e))
        /\ dict_get "timestamp" d = Some (VStr (utcnow_isoformat E))
        /\ dict_get "model" d = None) /\
  (forall a t c p m e,
      chat_completions_create E
        (moderation_request (moderation_messages a t c p m)) = Raise e ->
      exists d,
        result (moderate_room_conversation E a t c p m) = Return d
        /\ keys d = ["ai_response"; "error"]
        /\ dict_get "ai_response" d
           = Some (VDict [ ("text", VStr ("AI host encountered an issue: " ++ exn_str e));
                           ("audio", VNone) ])
        /\ dict_get "error" d = Some (VStr (exn_str e))).
Proof.
  split; [intros; apply try_except_returns |].
  split; [intros; apply try_except_returns |].
  split; [intros; apply try_except_returns |].
  split; [intros; apply try_except_returns |].
  split.
  { intros a f l e H. exists (matching_failure e). unfold result, run.
    rewrite (matching_remote_failure E a f l e [] H). repeat split. }
  split.
  { intros t c l ci e Hc H. exists (extraction_failure e). unfold result, run.
    rewrite (extraction_remote_failure E t c l ci e [] Hc H). repeat split. }
  split.
  { intros e H. unfold result, run. rewrite health_check_run, H.
    eexists. repeat split. }
  intros a t c p m e H. exists (moderation_failure e). unfold result, run.
  rewrite (moderation_remote_failure E a t c p m e [] H). repeat split.
Qed.

Lemma self_suppressing_methods_unreachable :
  exists d,
    result (process_voice_input_for_matching (unreachable connection_error)
                                             (AudioText "UklGRg==") "wav" "en-US")
    = Return d
    /\ keys d = [ "understood_text"; "extracted_topics"; "generated_hashtags";
                  "match_intent"; "audio_response"; "text_response"; "error" ]
    /\ dict_get "understood_text" d
       = Some (VStr "Sorry, I didn't understand what you said")
    /\ dict_get "extracted_topics" d = Some (VList [VStr "General topic"])
    /\ dict_get "generated_hashtags" d = Some (VList [VStr "#general"])
    /\ dict_get "match_intent" d = Some (VStr "General chat")
    /\ dict_get "audio_response" d = Some VNone
    /\ dict_get "text_response" d
       = Some (VStr "Error processing voice input: Connection error.")
    /\ dict_get "error" d = Some (VStr "Connection error.")
    /\ dict_get "audio_transcript" d = None
    /\ dict_get "processing_time" d = None.
Proof.
  apply (proj1 (proj2 (proj2 (proj2 (proj2
           (self_suppressing_methods (unreachable connection_error))))))
           (AudioText "UklGRg==") "wav" "en-US" connection_error).
  reflexivity.
Defined.

(** C1 as worded fails.  When the chat endpoint is unreachable the record
    of [moderate_room_conversation] has neither moderation_type,
    suggestions, timestamp nor participants, and the record of
    [process_voice_input_for_matching] has neither audio_transcript nor
    processing_time; and when a reply carries audio but no text, the record
    of [process_voice_input_for_matching] has none of understood_text,
    extracted_topics, generated_hashtags, match_intent. *)
Lemma declared_shape_not_always_complete :
  result (moderate_room_conversation (unreachable connection_error)
            None (Some "Any news?") None (Some ["ann"; "bob"]) "active_host")
  = Return [ ("ai_response",
              VDict [ ("text", VStr "AI host encountered an issue: Connection error.");
                      ("audio", VNone) ]);
             ("error", VStr "Connection error.") ]
  /\ result (process_voice_input_for_matching (unreachable connection_error)
               (AudioText "UklGRg==") "wav" "en-US")
     = Return [ ("understood_text", VStr "Sorry, I didn't understand what you said");
                ("extracted_topics", VList [VStr "General topic"]);
                ("generated_hashtags", VList [VStr "#general"]);
                ("match_intent", VStr "General chat");
                ("audio_response", VNone);
                ("text_response", VStr "Error processing voice input: Connection error.");
                ("error", VStr "Connection error.") ]
  /\ result (process_voice_input_for_matching
               (stub (Return (reply None (Some spoken_reply)))
                     (Raise connection_error) (Raise connection_error))
               (AudioText "UklGRg==") "wav" "en-US")
     = Return [ ("audio_response", VStr "UklGRiQAAABXQVZF");
                ("text_response", VNone);
                ("audio_transcript", VStr "Matching you now");
                ("processing_time", VStr "2024-05-01T12:00:00") ]
  /\ ~ complete_on_every_input.
Proof.
  split; [reflexivity |]. split; [reflexivity |]. split; [reflexivity |].
  intros claim.
  destruct (claim (unreachable connection_error)) as [_ [Hmod _]].
  destruct (Hmod None (Some "Any news?") None (Some ["ann"; "bob"]) "active_host")
    as [d [Hd Hfields]].
  cbv in Hd. injection Hd as <-. discriminate Hfields.
Qed.



(** ** process_voice_for_hashtags *)

Lemma list_ascii_app (s t : string) :
  list_ascii_of_string (s ++ t)
  = (list_ascii_of_string s ++ list_ascii_of_string t)%list.
Proof.
  induction s as [| c r IH]; cbn [String.append list_ascii_of_string app].
  - reflexivity.
  - now rewrite IH.
Qed.

(** A leading whitespace character is dropped. *)
Lemma lstrip_bytes_whitespace (w : string) (l : list ascii) :
  In w Py.whitespace_chars ->
  Py.lstrip_bytes (list_ascii_of_string w ++ l) = Py.lstrip_bytes l.
Proof.
  intros H. cbv in H.
  repeat (destruct H as [<- | H]; [reflexivity |]).
  contradiction.
Qed.

Lemma strip_whitespace_only (s : string) :
  Py.whitespace_only s -> Py.strip s = "".
Proof.
  intros H.
  assert (Hl : Py.lstrip_bytes (list_ascii_of_string s) = []).
  { induction H as [| w s Hw Hs IH].
    - reflexivity.
    - rewrite list_ascii_app, lstrip_bytes_whitespace; assumption. }
  unfold Py.strip, Py.lstrip. now rewrite Hl.
Qed.

Section Pipeline.

Variables (self : Self) (audio_data : file_arg) (audio_format language : string).
Variable log : list event.

Lemma pipeline_stt_raises (e : exn) (log1 : list event) :
  self_speech_to_text self audio_data language log = (Raise e, log1) ->
  process_voice_for_hashtags self audio_data audio_format language log
  = (Return (hashtags_failure e), log1).
Proof.
  intros H. unfold process_voice_for_hashtags, try_except, bind. now rewrite H.
Qed.

Variables (r : dict) (log1 : list event) (spoken : string).
Hypothesis transcribed : self_speech_to_text self audio_data language log = (Return r, log1).
Hypothesis text_of : dict_get "text" r = Some (VStr spoken).

Lemma pipeline_blank :
  Py.strip spoken = "" ->
  process_voice_for_hashtags self audio_data audio_format language log
  = (Return no_speech, log1).
Proof.
  intros H. unfold process_voice_for_hashtags, try_except, bind.
  rewrite transcribed. unfold subscript. rewrite text_of. cbn [ret].
  now rewrite H.
Qed.

Hypothesis not_blank : Py.strip spoken <> "".

Lemma pipeline_extract_raises (e : exn) (log2 : list event) :
  self_extract_topics_and_hashtags self spoken
    (Some (voice_context language audio_format)) "en-US" log1 = (Raise e, log2) ->
  process_voice_for_hashtags self audio_data audio_format language log
  = (Return (hashtags_failure e), log2).
Proof.
  intros H. unfold process_voice_for_hashtags, try_except, bind.
  rewrite transcribed. unfold subscript. rewrite text_of. cbn [ret].
  destruct (Py.strip spoken); [congruence |]. cbn [Py.truthy_str negb].
  now rewrite H.
Qed.

Lemma pipeline_merges (t : dict) (log2 : list event) (lv dv cv : value) :
  self_extract_topics_and_hashtags self spoken
    (Some (voice_context language audio_format)) "en-US" log1 = (Return t, log2) ->
  dict_get "language" r = Some lv ->
  dict_get "duration" r = Some dv ->
  dict_get "confidence" r = Some cv ->
  sized (dict_get_default "hashtags" (VList []) t) = true ->
  process_voice_for_hashtags self audio_data audio_format language log
  = (Return
       [ ("transcription", VStr spoken);
         ("language", lv);
         ("duration", dv);
         ("confidence", cv);
         ("main_topics", dict_get_default "main_topics" (VList []) t);
         ("hashtags", dict_get_default "hashtags" (VList []) t);
         ("category", dict_get_default "category" (VStr "other") t);
         ("sentiment", dict_get_default "sentiment" (VStr "neutral") t);
         ("conversation_style", dict_get_default "conversation_style" (VStr "casual") t);
         ("summary", dict_get_default "summary" (VStr (Py.take_chars 100 spoken)) t) ],
     log2).
Proof.
  intros H Hl Hd Hc Hs. unfold process_voice_for_hashtags, try_except, bind.
  rewrite transcribed. unfold subscript. rewrite text_of. cbn [ret].
  destruct (Py.strip spoken); [congruence |]. cbn [Py.truthy_str negb].
  rewrite H, Hl, Hd, Hc. cbn [ret].
  destruct (dict_get_default "hashtags" (VList []) t); try discriminate Hs; reflexivity.
Qed.

End Pipeline.

Lemma pipeline_unsized
    (self : Self) (audio_data : file_arg) (audio_format language : string)
    (log : list event) (r : dict) (log1 : list event) (spoken : string)
    (t : dict) (log2 : list event) (lv dv cv : value) :
  self_speech_to_text self audio_data language log = (Return r, log1) ->
  dict_get "text" r = Some (VStr spoken) ->
  Py.strip spoken <> "" ->
  self_extract_topics_and_hashtags self spoken
    (Some (voice_context language audio_format)) "en-US" log1 = (Return t, log2) ->
  dict_get "language" r = Some lv ->
  dict_get "duration" r = Some dv ->
  dict_get "confidence" r = Some cv ->
  sized (dict_get_default "hashtags" (VList []) t) = false ->
  process_voice_for_hashtags self audio_data audio_format language log
  = (Return (hashtags_failure
               (Exn TypeError
                    ("object of type '"
                     ++ type_name (dict_get_default "hashtags" (VList []) t)
                     ++ "' has no len()"))),
     log2).
Proof.
  intros Hs Ht Hn He Hl Hd Hc Hz. unfold process_voice_for_hashtags, try_except, bind.
  rewrite Hs. unfold subscript. rewrite Ht. cbn [ret].
  destruct (Py.strip spoken); [congruence |]. cbn [Py.truthy_str negb].
  rewrite He, Hl, Hd, Hc. cbn [ret].
  destruct (dict_get_default "hashtags" (VList []) t); try discriminate Hz; reflexivity.
Qed.

(** C4: when the transcript is empty or made of whitespace only,
    [process_voice_for_hashtags] returns transcription "", no topics, no
    hashtags and the error "No speech detected in audio".  This holds
    whatever [extract_topics_and_hashtags] is bound to, and the requests
    sent are those [speech_to_text] had sent when it returned: the topic
    stage is not run.  For the service itself the only request sent is the
    transcription request. *)
Theorem no_speech_short_circuit :
  (forall (self : Self) audio_data audio_format language log r log1 spoken,
      self_speech_to_text self audio_data language log = (Return r, log1) ->
      dict_get "text" r = Some (VStr spoken) ->
      Py.whitespace_only spoken ->
      process_voice_for_hashtags self audio_data audio_format language log
      = (Return [ ("transcription", VStr "");
                  ("main_topics", VList []);
                  ("hashtags", VList []);
                  ("error", VStr "No speech detected in audio") ],
         log1)) /\
  (forall (E : Env) audio_data audio_format language heard_reply,
      audio_transcriptions_create E
        (stt_request (as_buffer audio_data) (language_parameter language))
      = Return heard_reply ->
      Py.whitespace_only (reply_text heard_reply) ->
      result (process_voice_for_hashtags (service E) audio_data audio_format language)
      = Return [ ("transcription", VStr "");
                 ("main_topics", VList []);
                 ("hashtags", VList []);
                 ("error", VStr "No speech detected in audio") ]
      /\ sent (process_voice_for_hashtags (service E) audio_data audio_format language)
         = [SentTranscription
              (stt_request (as_buffer audio_data) (language_parameter language))]).
Proof.
  assert (generic :
    forall (self : Self) audio_data audio_format language log r log1 spoken,
      self_speech_to_text self audio_data language log = (Return r, log1) ->
      dict_get "text" r = Some (VStr spoken) ->
      Py.whitespace_only spoken ->
      process_voice_for_hashtags self audio_data audio_format language log
      = (Return no_speech, log1)).
  { intros self audio_data audio_format language log r log1 spoken Hs Ht Hw.
    apply (pipeline_blank self audio_data audio_format language log r log1 spoken Hs Ht).
    now apply strip_whitespace_only. }
  split; [exact generic |].
  intros E audio_data audio_format language heard_reply Hr Hw.
  unfold result, sent, run.
  rewrite (generic (service E) audio_data audio_format language []
             (transcription_record language heard_reply)
             [SentTranscription
                (stt_request (as_buffer audio_data) (language_parameter language))]
             (reply_text heard_reply)).
  - split; reflexivity.
  - cbn [service self_speech_to_text]. rewrite speech_to_text_run, Hr. reflexivity.
  - reflexivity.
  - exact Hw.
Qed.

Lemma no_speech_short_circuit_spaces :
  result (process_voice_for_hashtags
            (service (stub (Return (reply (Some intent_json) None))
                           (Raise connection_error)
                           (Return (heard "  " None))))
            (FileBytes [Byte.x00; Byte.x01]) "mp3" "en-US")
  = Return [ ("transcription", VStr "");
             ("main_topics", VList []);
             ("hashtags", VList []);
             ("error", VStr "No speech detected in audio") ]
  /\ sent (process_voice_for_hashtags
             (service (stub (Return (reply (Some intent_json) None))
                            (Raise connection_error)
                            (Return (heard "  " None))))
             (FileBytes [Byte.x00; Byte.x01]) "mp3" "en-US")
     = [SentTranscription
          (stt_request (as_buffer (FileBytes [Byte.x00; Byte.x01]))
                       (language_parameter "en-US"))].
Proof.
  apply (proj2 no_speech_short_circuit
           (stub (Return (reply (Some intent_json) None))
                 (Raise connection_error)
                 (Return (heard "  " None)))
           (FileBytes [Byte.x00; Byte.x01]) "mp3" "en-US" (heard "  " None)).
  - reflexivity.
  - apply (Py.ws_more " " " "); [do 9 right; left; reflexivity |].
    apply (Py.ws_more " " ""); [do 9 right; left; reflexivity |].
    apply Py.ws_empty.
Defined.

(** C2, as the code has it: when [speech_to_text] raises, or when
    [extract_topics_and_hashtags] raises, [process_voice_for_hashtags] does
    not raise and returns transcription "", no topics, no hashtags and the
    error [str(e)].  When the topic stage returns a record, the error field
    of that record is never copied, whether it has one or not.  With a
    transcription record that holds language, duration and confidence (as
    that of [speech_to_text] does): if the hashtags entry of the topic
    record is absent or has a length, the record returned carries the
    transcript and the topics and hashtags of the topic record and has no
    error field; if the hashtags entry has no length, the record returned is
    the empty one, its error being the TypeError of [len()]. *)
Theorem stage_failures_in_pipeline
    (self : Self) (audio_data : file_arg) (audio_format language : string)
    (log : list event) :
  (forall e log1,
      self_speech_to_text self audio_data language log = (Raise e, log1) ->
      process_voice_for_hashtags self audio_data audio_format language log
      = (Return [ ("transcription", VStr "");
                  ("main_topics", VList []);
                  ("hashtags", VList []);
                  ("error", VStr (exn_str e)) ],
         log1)) /\
  (forall r log1 spoken e log2,
      self_speech_to_text self audio_data language log = (Return r, log1) ->
      dict_get "text" r = Some (VStr spoken) ->
      Py.strip spoken <> "" ->
      self_extract_topics_and_hashtags self spoken
        (Some (voice_context language audio_format)) "en-US" log1 = (Raise e, log2) ->
      process_voice_for_hashtags self audio_data audio_format language log
      = (Return [ ("transcription", VStr "");
                  ("main_topics", VList []);
                  ("hashtags", VList []);
                  ("error", VStr (exn_str e)) ],
         log2)) /\
  (forall r log1 spoken t log2 lv dv cv,
      self_speech_to_text self audio_data language log = (Return r, log1) ->
      dict_get "text" r = Some (VStr spoken) ->
      Py.strip spoken <> "" ->
      self_extract_topics_and_hashtags self spoken
        (Some (voice_context language audio_format)) "en-US" log1 = (Return t, log2) ->
      dict_get "language" r = Some lv ->
      dict_get "duration" r = Some dv ->
      dict_get "confidence" r = Some cv ->
      (sized (dict_get_default "hashtags" (VList []) t) = true ->
       exists out,
         process_voice_for_hashtags self audio_data audio_format language log
         = (Return out, log2)
         /\ dict_get "transcription" out = Some (VStr spoken)
         /\ dict_get "main_topics" out = Some (dict_get_default "main_topics" (VList []) t)
         /\ dict_get "hashtags" out = Some (dict_get_default "hashtags" (VList []) t)
         /\ dict_get "error" out = None) /\
      (sized (dict_get_default "hashtags" (VList []) t) = false ->
       process_voice_for_hashtags self audio_data audio_format language log
       = (Return [ ("transcription", VStr "");
                   ("main_topics", VList []);
                   ("hashtags", VList []);
                   ("error",
                    VStr ("object of type '"
                          ++ type_name (dict_get_default "hashtags" (VList []) t)
                          ++ "' has no len()")) ],
          log2))).
Proof.
  split; [| split].
  - intros e log1 H.
    exact (pipeline_stt_raises self audio_data audio_format language log e log1 H).
  - intros r log1 spoken e log2 Hs Ht Hn He.
    exact (pipeline_extract_raises self audio_data audio_format language log
             r log1 spoken Hs Ht Hn e log2 He).
  - intros r log1 spoken t log2 lv dv cv Hs Ht Hn He Hl Hd Hc. split.
    + intros Hz. eexists. split.
      * exact (pipeline_merges self audio_data audio_format language log
                 r log1 spoken Hs Ht Hn t log2 lv dv cv He Hl Hd Hc Hz).
      * repeat split.
    + intros Hz.
      exact (pipeline_unsized self audio_data audio_format language log r log1 spoken
               t log2 lv dv cv Hs Ht Hn He Hl Hd Hc Hz).
Qed.

Lemma stage_failures_in_pipeline_chat_down :
  exists out,
    process_voice_for_hashtags (service chat_down) (FileBytes []) "mp3" "en-US" []
    = (Return out,
       snd (extract_topics_and_hashtags chat_down "hello"
              (Some (voice_context "en-US" "mp3")) "en-US"
              [SentTranscription (stt_request (as_buffer (FileBytes [])) (Some "en"))]))
    /\ dict_get "transcription" out = Some (VStr "hello")
    /\ dict_get "main_topics" out = Some (VList [VStr "general"])
    /\ dict_get "hashtags" out = Some (VList [VStr "#general"; VStr "#chat"])
    /\ dict_get "error" out = None.
Proof.
  refine (proj1
            (proj2 (proj2 (stage_failures_in_pipeline
                             (service chat_down) (FileBytes []) "mp3" "en-US" []))
               (transcription_record "en-US" (heard "hello" (Some "english")))
               [SentTranscription (stt_request (as_buffer (FileBytes [])) (Some "en"))]
               "hello"
               (extraction_failure connection_error)
               (snd (extract_topics_and_hashtags chat_down "hello"
                       (Some (voice_context "en-US" "mp3")) "en-US"
                       [SentTranscription
                          (stt_request (as_buffer (FileBytes [])) (Some "en"))]))
               (VStr "english") (VFloat (Finite (3 # 2))) (VFloat (Finite (95 # 100)))
               _ _ _ _ _ _ _) _);
    try reflexivity.
  discriminate.
Defined.

(** C2 as worded fails when the topic stage returns a record with an error
    field: with the chat endpoint down, [extract_topics_and_hashtags] returns
    its request-level fallback, error included, and the pipeline returns the
    transcript with the fallback topics and no error field. *)
Lemma topic_error_is_not_surfaced :
  result (extract_topics_and_hashtags chat_down "hello"
            (Some (voice_context "en-US" "mp3")) "en-US")
  = Return (extraction_failure connection_error)
  /\ result (process_voice_for_hashtags (service chat_down) (FileBytes []) "mp3" "en-US")
     = Return [ ("transcription", VStr "hello");
                ("language", VStr "english");
                ("duration", VFloat (Finite (3 # 2)));
                ("confidence", VFloat (Finite (95 # 100)));
                ("main_topics", VList [VStr "general"]);
                ("hashtags", VList [VStr "#general"; VStr "#chat"]);
                ("category", VStr "other");
                ("sentiment", VStr "neutral");
                ("conversation_style", VStr "casual");
                ("summary", VStr "Could not analyze topics") ]
  /\ ~ stage_failures_give_empty_result.
Proof.
  assert (Hrun :
    result (process_voice_for_hashtags (service chat_down) (FileBytes []) "mp3" "en-US")
    = Return [ ("transcription", VStr "hello");
               ("language", VStr "english");
               ("duration", VFloat (Finite (3 # 2)));
               ("confidence", VFloat (Finite (95 # 100)));
               ("main_topics", VList [VStr "general"]);
               ("hashtags", VList [VStr "#general"; VStr "#chat"]);
               ("category", VStr "other");
               ("sentiment", VStr "neutral");
               ("conversation_style", VStr "casual");
               ("summary", VStr "Could not analyze topics") ]) by reflexivity.
  split; [reflexivity |]. split; [exact Hrun |].
  intros claim.
  destruct (claim chat_down (FileBytes []) "mp3" "en-US") as [d [Hd [Ht _]]].
  - right.
    exists (transcription_record "en-US" (heard "hello" (Some "english"))), "hello".
    split; [reflexivity |]. split; [reflexivity |].
    right. exists (extraction_failure connection_error).
    split; reflexivity.
  - rewrite Hrun in Hd. injection Hd as <-. discriminate Ht.
Qed.

(** ** Further properties of the methods *)

(** X1: a reply whose text is not valid JSON gives the generic single-topic
    record built from the raw text, and the audio of the reply is attached
    to it all the same. *)
Theorem matching_parse_fallback_keeps_reply
    (E : Env) (audio_data : audio_arg) (audio_format language : string)
    (r : chat_completion) (c : chat_choice) (rest : list chat_choice)
    (text : string) (e : exn) :
  chat_completions_create E
    (matching_request (to_base64 audio_data) audio_format language) = Return r ->
  choices r = c :: rest ->
  content (message c) = Some text ->
  text <> "" ->
  json_loads E text = Raise e ->
  is_JSONDecodeError e = true ->
  result (process_voice_input_for_matching E audio_data audio_format language)
  = Return [ ("understood_text", VStr text);
             ("extracted_topics", VList [VStr "General topic"]);
             ("generated_hashtags", VList [VStr "#general"]);
             ("match_intent", VStr "Wants to chat");
             ("audio_response", audio_data_or_None (message c));
             ("text_response", VStr text);
             ("audio_transcript", audio_transcript_or_None (message c));
             ("processing_time", VStr (utcnow_isoformat E)) ].
Proof.
  intros Hr Hc Ht Hne Hl He.
  unfold result, run, process_voice_input_for_matching, try_except, bind, send_chat.
  rewrite Hr, Hc. cbn [index0 ret]. rewrite Ht.
  destruct text as [| ch tl]; [congruence |]. cbn [Py.truthy_str].
  unfold try_except_JSONDecodeError, lift. rewrite Hl, He.
  unfold reply_fields. rewrite Ht. reflexivity.
Qed.

Lemma matching_parse_fallback_keeps_reply_prose :
  result (process_voice_input_for_matching prose_reply (AudioText "UklGRg==") "wav" "en-US")
  = Return [ ("understood_text", VStr "Happy to help!");
             ("extracted_topics", VList [VStr "General topic"]);
             ("generated_hashtags", VList [VStr "#general"]);
             ("match_intent", VStr "Wants to chat");
             ("audio_response", VStr "UklGRiQAAABXQVZF");
             ("text_response", VStr "Happy to help!");
             ("audio_transcript", VStr "Matching you now");
             ("processing_time", VStr "2024-05-01T12:00:00") ].
Proof.
  apply (matching_parse_fallback_keeps_reply prose_reply (AudioText "UklGRg==") "wav" "en-US"
           (reply (Some "Happy to help!") (Some spoken_reply))
           {| message := {| content := Some "Happy to help!"; audio := Some spoken_reply |} |}
           [] "Happy to help!" (Exn JSONDecodeError "Expecting value"));
    try reflexivity.
  discriminate.
Defined.

(** X2: a reply whose text decodes to a JSON value that is not an object
    ends in the placeholder record of the [except] clause, its error naming
    the missing [update]. *)
Theorem matching_non_object_reply
    (E : Env) (audio_data : audio_arg) (audio_format language : string)
    (r : chat_completion) (c : chat_choice) (rest : list chat_choice)
    (text : string) (v : value) :
  chat_completions_create E
    (matching_request (to_base64 audio_data) audio_format language) = Return r ->
  choices r = c :: rest ->
  content (message c) = Some text ->
  text <> "" ->
  json_loads E text = Return v ->
  (forall d, v <> VDict d) ->
  result (process_voice_input_for_matching E audio_data audio_format language)
  = Return (matching_failure
              (Exn AttributeError
                   ("'" ++ type_name v ++ "' object has no attribute 'update'"))).
Proof.
  intros Hr Hc Ht Hne Hl Hv. unfold result, run.
  now rewrite (matching_not_object E audio_data audio_format language r c rest
                 Hr Hc text Ht Hne v [] Hl Hv).
Qed.

Lemma matching_non_object_reply_number :
  result (process_voice_input_for_matching scalar_reply (AudioText "UklGRg==") "wav" "en-US")
  = Return (matching_failure
              (Exn AttributeError "'int' object has no attribute 'update'")).
Proof.
  apply (matching_non_object_reply scalar_reply (AudioText "UklGRg==") "wav" "en-US"
           (reply (Some "42") (Some spoken_reply))
           {| message := {| content := Some "42"; audio := Some spoken_reply |} |}
           [] "42" (VInt 42));
    try reflexivity; discriminate.
Defined.

(** X3: when the chat endpoint answers, [moderate_room_conversation]
    returns a record with ai_response, moderation_type, suggestions,
    timestamp and participants; the suggestions are those
    [_extract_suggestions] finds in the reply text. *)
Theorem moderation_reply_record
    (E : Env) (audio_data : option audio_arg) (text_input : option string)
    (conversation_context : option (list value))
    (room_participants : option (list string)) (moderation_mode : string)
    (r : chat_completion) (c : chat_choice) (rest : list chat_choice) :
  chat_completions_create E
    (moderation_request
       (moderation_messages audio_data text_input conversation_context
                            room_participants moderation_mode)) = Return r ->
  choices r = c :: rest ->
  exists d,
    result (moderate_room_conversation E audio_data text_input conversation_context
                                       room_participants moderation_mode) = Return d
    /\ keys d = moderation_shape
    /\ dict_get "moderation_type" d = Some (VStr moderation_mode)
    /\ dict_get "suggestions" d
       = Some (str_list (_extract_suggestions
                           (match content (message c) with
                            | Some t => t
                            | None => ""
                            end)))
    /\ dict_get "timestamp" d = Some (VStr (utcnow_isoformat E)).
Proof.
  intros Hr Hc.
  unfold result, run, moderate_room_conversation, try_except, bind, send_chat.
  rewrite Hr, Hc. cbn [index0 ret fst].
  eexists. split; [reflexivity |]. repeat split.
  cbn [dict_get String.eqb Ascii.eqb Bool.eqb].
  destruct (content (message c)) as [[| ch tl] |]; reflexivity.
Qed.

Lemma moderation_reply_record_prose :
  exists d,
    result (moderate_room_conversation prose_reply None (Some "Any news?") None
                                       (Some ["ann"; "bob"]) "secretary") = Return d
    /\ keys d = moderation_shape
    /\ dict_get "moderation_type" d = Some (VStr "secretary")
    /\ dict_get "suggestions" d = Some (VList [])
    /\ dict_get "timestamp" d = Some (VStr "2024-05-01T12:00:00").
Proof.
  apply (moderation_reply_record prose_reply None (Some "Any news?") None
           (Some ["ann"; "bob"]) "secretary"
           (reply (Some "Happy to help!") (Some spoken_reply))
           {| message := {| content := Some "Happy to help!"; audio := Some spoken_reply |} |}
           []);
    reflexivity.
Defined.

(** X4: [process_voice_for_hashtags] never raises, whatever its two stage
    methods do. *)
Theorem pipeline_never_raises
    (self : Self) (audio_data : file_arg) (audio_format language : string)
    (log : list event) :
  exists d log',
    process_voice_for_hashtags self audio_data audio_format language log = (Return d, log').
Proof. apply try_except_returns. Qed.

(** X5: when the transcription endpoint answers, [speech_to_text] returns
    a record with the keys text, language, duration, confidence, words: the
    text of the reply and the fixed confidence 0.95; for the duration, 0.0
    when the reply object has no duration attribute, the duration when the
    attribute holds one, and None when the attribute is None; for the words,
    the spans of the reply in their order, and the empty list when the
    attribute is missing, None or empty. *)
Theorem speech_to_text_record
    (E : Env) (audio_file : file_arg) (language : string) (heard_reply : transcription) :
  audio_transcriptions_create E
    (stt_request (as_buffer audio_file) (language_parameter language)) = Return heard_reply ->
  exists d,
    result (speech_to_text E audio_file language) = Return d
    /\ keys d = ["text"; "language"; "duration"; "confidence"; "words"]
    /\ dict_get "text" d = Some (VStr (reply_text heard_reply))
    /\ dict_get "confidence" d = Some (VFloat (Finite (95 # 100)))
    /\ dict_get "duration" d
       = Some (match reply_duration heard_reply with
               | Missing => VFloat (Finite 0)
               | Attr (Some seconds) => VFloat seconds
               | Attr None => VNone
               end)
    /\ dict_get "words" d
       = Some (VList (match reply_words heard_reply with
                      | Attr (Some spans) => map word_entry spans
                      | Attr None => []
                      | Missing => []
                      end)).
Proof.
  intros H. unfold result, run. rewrite speech_to_text_run, H.
  eexists. split; [reflexivity |]. unfold transcription_record.
  split; [reflexivity |]. split; [reflexivity |]. split; [reflexivity |].
  split.
  - cbn [dict_get String.eqb Ascii.eqb Bool.eqb]. unfold getattr.
    destruct (reply_duration heard_reply) as [| [seconds |]]; reflexivity.
  - cbn [dict_get String.eqb Ascii.eqb Bool.eqb].
    destruct (reply_words heard_reply) as [| [[| w ws] |]]; reflexivity.
Qed.

Lemma speech_to_text_record_bare :
  exists d,
    result (speech_to_text
              (stub (Raise connection_error) (Raise connection_error)
                    (Return (heard_bare "good morning")))
              (FileBytes []) "en-US") = Return d
    /\ keys d = ["text"; "language"; "duration"; "confidence"; "words"]
    /\ dict_get "text" d = Some (VStr "good morning")
    /\ dict_get "confidence" d = Some (VFloat (Finite (95 # 100)))
    /\ dict_get "duration" d = Some VNone
    /\ dict_get "words" d = Some (VList []).
Proof.
  apply (speech_to_text_record
           (stub (Raise connection_error) (Raise connection_error)
                 (Return (heard_bare "good morning")))
           (FileBytes []) "en-US" (heard_bare "good morning")).
  reflexivity.
Defined.

(** X6: a reply whose text decodes to a JSON object is returned by
    [extract_topics_and_hashtags] as it was decoded, whatever its keys. *)
Theorem extraction_object_reply
    (E : Env) (text : string) (context : option dict) (language context_info : string)
    (r : chat_completion) (c : chat_choice) (rest : list chat_choice)
    (reply_text : string) (d : dict) :
  context_info_of E context = Return context_info ->
  chat_completions_create E (extraction_request text language context_info) = Return r ->
  choices r = c :: rest ->
  content (message c) = Some reply_text ->
  json_loads E reply_text = Return (VDict d) ->
  result (extract_topics_and_hashtags E text context language) = Return d.
Proof.
  intros Hc Hr Hch Ht Hl.
  unfold result, run, extract_topics_and_hashtags, try_except, bind, lift, send_chat.
  rewrite Hc, Hr, Hch. cbn [index0 ret].
  unfold try_except_JSONDecodeError, bind. rewrite Ht. cbn [py_json_loads].
  unfold lift. rewrite Hl. reflexivity.
Qed.

Lemma extraction_object_reply_empty :
  result (extract_topics_and_hashtags
            (stub (Return (reply (Some "{}") None))
                  (Raise connection_error) (Raise connection_error))
            "I love hiking" None "en-US") = Return [].
Proof.
  apply (extraction_object_reply
           (stub (Return (reply (Some "{}") None))
                 (Raise connection_error) (Raise connection_error))
           "I love hiking" None "en-US" ""
           (reply (Some "{}") None)
           {| message := {| content := Some "{}"; audio := None |} |} [] "{}" []);
    reflexivity.
Defined.

(** ** Requests sent *)

Lemma matching_sent (E : Env) (a : audio_arg) (f l : string) (log : list event) :
  snd (process_voice_input_for_matching E a f l log)
  = (log ++ [SentChat (matching_request (to_base64 a) f l)])%list.
Proof.
  unfold process_voice_input_for_matching, try_except, bind, send_chat.
  destruct (chat_completions_create E _) as [r | e]; [| reflexivity].
  destruct (choices r) as [| c rest]; [reflexivity |]. cbn [index0 ret].
  destruct (content (message c)) as [[| ch tl] |]; try reflexivity.
  cbn [Py.truthy_str]. unfold try_except_JSONDecodeError, lift.
  destruct (json_loads E _) as [v | e].
  - destruct v; reflexivity.
  - destruct (is_JSONDecodeError e); reflexivity.
Qed.

Lemma moderation_sent
    (E : Env) (a : option audio_arg) (t : option string) (c : option (list value))
    (p : option (list string)) (m : string) (log : list event) :
  snd (moderate_room_conversation E a t c p m log)
  = (log ++ [SentChat (moderation_request (moderation_messages a t c p m))])%list.
Proof.
  unfold moderate_room_conversation, try_except, bind, send_chat.
  destruct (chat_completions_create E _) as [r | e]; [| reflexivity].
  destruct (choices r) as [| ch rest]; reflexivity.
Qed.

Lemma extraction_sent
    (E : Env) (t : string) (c : option dict) (l : string) (log : list event) :
  snd (extract_topics_and_hashtags E t c l log)
  = match context_info_of E c with
    | Return ci => (log ++ [SentChat (extraction_request t l ci)])%list
    | Raise _ => log
    end.
Proof.
  unfold extract_topics_and_hashtags, try_except, bind, lift, send_chat.
  destruct (context_info_of E c) as [ci | e]; [| reflexivity].
  destruct (chat_completions_create E _) as [r | e]; [| reflexivity].
  destruct (choices r) as [| ch rest]; [reflexivity |]. cbn [index0 ret].
  unfold try_except_JSONDecodeError, bind.
  destruct (content (message ch)) as [text |]; cbn [py_json_loads]; [| reflexivity].
  unfold lift. destruct (json_loads E text) as [v | e].
  - destruct v; reflexivity.
  - destruct (is_JSONDecodeError e); reflexivity.
Qed.

(** X7: no method retries or fans out.  Whatever the endpoint answers,
    each call of a method sends exactly one request, the one built from its
    arguments; [extract_topics_and_hashtags] sends none when its context
    cannot be serialised. *)
Theorem one_request_per_call (E : Env) :
  (forall a f l,
      sent (process_voice_input_for_matching E a f l)
      = [SentChat (matching_request (to_base64 a) f l)]) /\
  (forall a t c p m,
      sent (moderate_room_conversation E a t c p m)
      = [SentChat (moderation_request (moderation_messages a t c p m))]) /\
  sent (health_check E) = [SentSpeech health_probe] /\
  (forall text voice speed,
      sent (text_to_speech E text voice speed) = [SentSpeech (tts_request text voice speed)]) /\
  (forall a l,
      sent (speech_to_text E a l)
      = [SentTranscription (stt_request (as_buffer a) (language_parameter l))]) /\
  (forall t c l,
      sent (extract_topics_and_hashtags E t c l)
      = match context_info_of E c with
        | Return ci => [SentChat (extraction_request t l ci)]
        | Raise _ => []
        end).
Proof.
  unfold sent, run. repeat split; intros.
  - apply matching_sent.
  - apply moderation_sent.
  - now rewrite health_check_run.
  - now rewrite text_to_speech_run.
  - now rewrite speech_to_text_run.
  - rewrite extraction_sent. destruct (context_info_of E c); reflexivity.
Qed.

(** X8: a reply that carries no choice is handled as a failure.  The
    three chat methods report "list index out of range" in their failure
    record instead of raising. *)
Theorem reply_without_choices (E : Env) :
  (forall a f l r,
      chat_completions_create E (matching_request (to_base64 a) f l) = Return r ->
      choices r = [] ->
      result (process_voice_input_for_matching E a f l)
      = Return (matching_failure (Exn IndexError "list index out of range"))) /\
  (forall a t c p m r,
      chat_completions_create E (moderation_request (moderation_messages a t c p m))
      = Return r ->
      choices r = [] ->
      result (moderate_room_conversation E a t c p m)
      = Return (moderation_failure (Exn IndexError "list index out of range"))) /\
  (forall t c l ci r,
      context_info_of E c = Return ci ->
      chat_completions_create E (extraction_request t l ci) = Return r ->
      choices r = [] ->
      result (extract_topics_and_hashtags E t c l)
      = Return (extraction_failure (Exn IndexError "list index out of range"))).
Proof.
  unfold result, run. repeat split.
  - intros a f l r Hr Hc.
    unfold process_voice_input_for_matching, try_except, bind, send_chat.
    now rewrite Hr, Hc.
  - intros a t c p m r Hr Hc.
    unfold moderate_room_conversation, try_except, bind, send_chat.
    now rewrite Hr, Hc.
  - intros t c l ci r Hci Hr Hc.
    unfold extract_topics_and_hashtags, try_except, bind, lift, send_chat.
    now rewrite Hci, Hr, Hc.
Qed.

Lemma reply_without_choices_matching :
  result (process_voice_input_for_matching no_choices (AudioText "UklGRg==") "wav" "en-US")
  = Return (matching_failure index_error).
Proof.
  apply (proj1 (reply_without_choices no_choices)
           (AudioText "UklGRg==") "wav" "en-US" {| choices := [] |});
    reflexivity.
Defined.

Lemma dict_get_update_other (k : string) (other d : dict) :
  ~ In k (keys other) -> dict_get k (dict_update d other) = dict_get k d.
Proof.
  unfold dict_update. revert d.
  induction other as [| [k' v'] rest IH]; intros d Hk; cbn [fold_left fst snd].
  - reflexivity.
  - rewrite IH.
    + apply dict_get_set_other. intros ->. apply Hk. now left.
    + intros Hin. apply Hk. now right.
Qed.

(** X9: a decoded object keeps its own entries.  When the reply text
    decodes to a JSON object, every entry of that object under a key other
    than audio_response, text_response, audio_transcript and processing_time
    is returned as decoded, and those four hold the reply, whatever the
    object had under them. *)
Theorem matching_object_entries
    (E : Env) (audio_data : audio_arg) (audio_format language : string)
    (r : chat_completion) (c : chat_choice) (rest : list chat_choice)
    (text : string) (d : dict) :
  chat_completions_create E
    (matching_request (to_base64 audio_data) audio_format language) = Return r ->
  choices r = c :: rest ->
  content (message c) = Some text ->
  text <> "" ->
  json_loads E text = Return (VDict d) ->
  exists out,
    result (process_voice_input_for_matching E audio_data audio_format language) = Return out
    /\ (forall k, ~ In k reply_keys -> dict_get k out = dict_get k d)
    /\ dict_get "audio_response" out = Some (audio_data_or_None (message c))
    /\ dict_get "text_response" out = Some (VStr text)
    /\ dict_get "audio_transcript" out = Some (audio_transcript_or_None (message c))
    /\ dict_get "processing_time" out = Some (VStr (utcnow_isoformat E)).
Proof.
  intros Hr Hc Ht Hne Hd.
  exists (dict_update d (reply_fields E (message c))).
  unfold result, run.
  rewrite (matching_object E audio_data audio_format language r c rest Hr Hc text Ht Hne d [] Hd).
  split; [reflexivity |]. split.
  { intros k Hk. apply dict_get_update_other. exact Hk. }
  split; [apply audio_response_after_update |].
  unfold dict_update, reply_fields. cbn [fold_left fst snd]. rewrite Ht.
  repeat split.
  - rewrite !dict_get_set_other by discriminate. apply dict_get_set_same.
  - rewrite !dict_get_set_other by discriminate. apply dict_get_set_same.
  - apply dict_get_set_same.
Qed.

Lemma matching_object_entries_films :
  exists out,
    result (process_voice_input_for_matching
              (stub (Return (reply (Some intent_json) (Some spoken_reply)))
                    (Raise connection_error) (Raise connection_error))
              (AudioText "UklGRg==") "wav" "en-US") = Return out
    /\ (forall k, ~ In k reply_keys ->
                  dict_get k out
                  = dict_get k [ ("understood_text", VStr "I want to talk about films");
                                 ("extracted_topics", VList [VStr "Films"]);
                                 ("generated_hashtags", VList [VStr "#films"]);
                                 ("match_intent", VStr "Looking for film fans") ])
    /\ dict_get "audio_response" out = Some (VStr "UklGRiQAAABXQVZF")
    /\ dict_get "text_response" out = Some (VStr intent_json)
    /\ dict_get "audio_transcript" out = Some (VStr "Matching you now")
    /\ dict_get "processing_time" out = Some (VStr "2024-05-01T12:00:00").
Proof.
  apply (matching_object_entries
           (stub (Return (reply (Some intent_json) (Some spoken_reply)))
                 (Raise connection_error) (Raise connection_error))
           (AudioText "UklGRg==") "wav" "en-US"
           (reply (Some intent_json) (Some spoken_reply))
           {| message := {| content := Some intent_json; audio := Some spoken_reply |} |} []
           intent_json
           [ ("understood_text", VStr "I want to talk about films");
             ("extracted_topics", VList [VStr "Films"]);
             ("generated_hashtags", VList [VStr "#films"]);
             ("match_intent", VStr "Looking for film fans") ]);
    try reflexivity.
  discriminate.
Defined.

(** X10: a reply that is no JSON object is a request-level failure for
    [extract_topics_and_hashtags].  A reply without text ends in the
    failure record with the TypeError of [json.loads(None)]; a reply whose
    text decodes to a value that is not an object ends in the failure record
    with "'<type>' object has no attribute 'get'". *)
Theorem extraction_unusable_reply
    (E : Env) (text : string) (context : option dict) (language context_info : string)
    (r : chat_completion) (c : chat_choice) (rest : list chat_choice) :
  context_info_of E context = Return context_info ->
  chat_completions_create E (extraction_request text language context_info) = Return r ->
  choices r = c :: rest ->
  (content (message c) = None ->
   result (extract_topics_and_hashtags E text context language)
   = Return (extraction_failure
               (Exn TypeError
                    "the JSON object must be str, bytes or bytearray, not NoneType"))) /\
  (forall reply_text v,
      content (message c) = Some reply_text ->
      json_loads E reply_text = Return v ->
      (forall d, v <> VDict d) ->
      result (extract_topics_and_hashtags E text context language)
      = Return (extraction_failure
                  (Exn AttributeError
                       ("'" ++ type_name v ++ "' object has no attribute 'get'")))).
Proof.
  intros Hc Hr Hch.
  unfold result, run, extract_topics_and_hashtags, try_except, bind, lift, send_chat.
  rewrite Hc, Hr, Hch. cbn [index0 ret].
  unfold try_except_JSONDecodeError, bind. split.
  - intros Ht. rewrite Ht. reflexivity.
  - intros reply_text v Ht Hl Hv. rewrite Ht. cbn [py_json_loads].
    unfold lift. rewrite Hl.
    destruct v; try reflexivity. now elim (Hv d).
Qed.

Lemma extraction_unusable_reply_array :
  result (extract_topics_and_hashtags array_reply "I love hiking" None "en-US")
  = Return (extraction_failure
              (Exn AttributeError "'list' object has no attribute 'get'")).
Proof.
  apply (proj2 (extraction_unusable_reply array_reply "I love hiking" None "en-US" ""
                  (reply (Some "[1, 2]") None)
                  {| message := {| content := Some "[1, 2]"; audio := None |} |} []
                  eq_refl eq_refl eq_refl)
           "[1, 2]" (VList [VInt 1; VInt 2]));
    try reflexivity.
  discriminate.
Defined.

(** X11: when [json.dumps] raises on a non-empty context,
    [extract_topics_and_hashtags] returns its failure record with that
    error, and no request is sent. *)
Theorem extraction_context_not_serializable
    (E : Env) (text : string) (context : dict) (language : string) (e : exn) :
  context <> [] ->
  json_dumps_indent2 E (VDict context) = Raise e ->
  result (extract_topics_and_hashtags E text (Some context) language)
  = Return (extraction_failure e)
  /\ sent (extract_topics_and_hashtags E text (Some context) language) = [].
Proof.
  intros Hne He.
  assert (Hci : context_info_of E (Some context) = Raise e).
  { unfold context_info_of. destruct context as [| kv rest]; [congruence |].
    now rewrite He. }
  unfold result, sent, run. split.
  - unfold extract_topics_and_hashtags, try_except, bind, lift. now rewrite Hci.
  - rewrite extraction_sent, Hci. reflexivity.
Qed.

Lemma extraction_context_not_serializable_datetime :
  result (extract_topics_and_hashtags (dumps_refuses not_serializable) "I love hiking"
            (Some [("joined", VStr "yesterday")]) "en-US")
  = Return (extraction_failure not_serializable)
  /\ sent (extract_topics_and_hashtags (dumps_refuses not_serializable) "I love hiking"
             (Some [("joined", VStr "yesterday")]) "en-US") = [].
Proof.
  apply (extraction_context_not_serializable (dumps_refuses not_serializable)
           "I love hiking" [("joined", VStr "yesterday")] "en-US" not_serializable).
  - discriminate.
  - reflexivity.
Defined.

Lemma last10_window {A} (l : list A) :
  exists dropped, l = (dropped ++ last10 l)%list
                  /\ List.length (last10 l) = Nat.min 10 (List.length l).
Proof.
  unfold last10. exists (firstn (List.length l - 10) l). split.
  - symmetry. apply firstn_skipn.
  - rewrite length_skipn. lia.
Qed.

(** X12: the request of [moderate_room_conversation] opens with the system
    message and closes with the user message; between them stand the last
    ten messages of the conversation context at most, in their order, the
    older ones being dropped.  The content of the user message is never
    empty. *)
Theorem moderation_context_window
    (audio_data : option audio_arg) (text_input : option string)
    (conversation_context : option (list value))
    (room_participants : option (list string)) (moderation_mode : string) :
  exists window dropped parts,
    moderation_messages audio_data text_input conversation_context
                        room_participants moderation_mode
    = ([ VDict [("role", VStr "system");
                ("content", VStr (moderation_prompt moderation_mode room_participants))] ]
       ++ window
       ++ [ VDict [("role", VStr "user"); ("content", VList parts)] ])%list
    /\ match conversation_context with Some l => l | None => [] end
       = (dropped ++ window)%list
    /\ List.length window
       = Nat.min 10 (List.length (match conversation_context with
                                  | Some l => l
                                  | None => []
                                  end))
    /\ parts <> [].
Proof.
  unfold moderation_messages.
  match goal with
  | |- context [VList ?p] => set (parts := p)
  end.
  assert (Hparts : parts <> []).
  { subst parts.
    destruct (truthy_audio audio_data); destruct audio_data as [a |];
      destruct text_input as [[| ch tl] |]; cbn; discriminate. }
  destruct conversation_context as [[| m r] |].
  - exists [], [], parts. repeat split; assumption.
  - destruct (last10_window (m :: r)) as [dropped [Hl Hn]].
    exists (last10 (m :: r)), dropped, parts.
    split; [now rewrite <- app_assoc |]. repeat split; assumption.
  - exists [], [], parts. repeat split; assumption.
Qed.

(** ** Whitespace, the other way round *)

Lemma pick_whitespace (w : string) :
  existsb (String.eqb w) Py.whitespace_chars = true -> In w Py.whitespace_chars.
Proof.
  intros H. apply existsb_exists in H. destruct H as [x [Hin Heq]].
  apply String.eqb_eq in Heq. now subst x.
Qed.

Lemma space1_whitespace (c : ascii) :
  Py.space1 c = true -> In (String c EmptyString) Py.whitespace_chars.
Proof.
  intros H. apply pick_whitespace. revert H.
  destruct c as [[] [] [] [] [] [] [] []]; vm_compute; intros H;
    first [reflexivity | discriminate H].
Qed.

Lemma code_is (c : ascii) (n : nat) : (Py.code c =? n)%nat = true -> c = ascii_of_nat n.
Proof.
  intros H. apply Nat.eqb_eq in H. unfold Py.code in H.
  now rewrite <- H, ascii_nat_embedding.
Qed.

Lemma space2_whitespace (c1 c2 : ascii) :
  Py.space2 c1 c2 = true ->
  In (String c1 (String c2 EmptyString)) Py.whitespace_chars.
Proof.
  intros H. apply pick_whitespace. unfold Py.space2 in H.
  apply andb_true_iff in H. destruct H as [H1 H2].
  apply code_is in H1. subst c1.
  apply orb_true_iff in H2.
  destruct H2 as [H2 | H2]; apply code_is in H2; subst c2; reflexivity.
Qed.

Lemma code_between (c : ascii) (lo hi : nat) :
  (lo <=? Py.code c)%nat && (Py.code c <=? hi)%nat = true ->
  exists k, (k <= hi - lo)%nat /\ c = ascii_of_nat (lo + k).
Proof.
  intros H. apply andb_true_iff in H. destruct H as [H1 H2].
  apply Nat.leb_le in H1. apply Nat.leb_le in H2.
  exists (Py.code c - lo)%nat. split; [lia |].
  replace (lo + (Py.code c - lo))%nat with (Py.code c) by lia.
  unfold Py.code. now rewrite ascii_nat_embedding.
Qed.

Lemma space3_whitespace (c1 c2 c3 : ascii) :
  Py.space3 c1 c2 c3 = true ->
  In (String c1 (String c2 (String c3 EmptyString))) Py.whitespace_chars.
Proof.
  intros H. apply pick_whitespace. unfold Py.space3 in H.
  repeat (apply orb_true_iff in H; destruct H as [H | H]);
    repeat (apply andb_true_iff in H; destruct H as [H ?]);
    repeat match goal with
           | Hc : (Py.code ?c =? _)%nat = true |- _ => apply code_is in Hc; subst c
           end;
    try reflexivity.
  - (* c3 ranges over the third byte of U+2000 .. U+200A, U+2028, U+2029, U+202F *)
    repeat match goal with
           | Hc : _ || _ = true |- _ => apply orb_true_iff in Hc; destruct Hc as [Hc | Hc]
           end;
      try (match goal with
           | Hc : (Py.code ?c =? _)%nat = true |- _ => apply code_is in Hc; subst c
           end; reflexivity).
    match goal with
    | Hc : (_ <=? Py.code c3)%nat && _ = true |- _ =>
        apply code_between in Hc; destruct Hc as [k [Hk ->]]
    end.
    cbn in Hk.
    do 11 (destruct k as [| k]; [reflexivity |]). lia.
Qed.

Lemma string_of_list_app (a b : list ascii) :
  string_of_list_ascii (a ++ b) = string_of_list_ascii a ++ string_of_list_ascii b.
Proof.
  induction a as [| c r IH]; cbn [app string_of_list_ascii String.append].
  - reflexivity.
  - now rewrite IH.
Qed.

Lemma whitespace_only_app (s t : string) :
  Py.whitespace_only s -> Py.whitespace_only t -> Py.whitespace_only (s ++ t).
Proof.
  intros Hs Ht. induction Hs as [| w s Hw Hs IH].
  - exact Ht.
  - replace ((w ++ s) ++ t) with (w ++ (s ++ t)).
    + now constructor.
    + clear. induction w as [| c r IHw]; cbn [String.append]; [reflexivity | now rewrite IHw].
Qed.

Lemma whitespace_char_only (w : string) :
  In w Py.whitespace_chars -> Py.whitespace_only w.
Proof.
  intros H. replace w with (w ++ "").
  - constructor; [exact H | constructor].
  - clear. induction w as [| c r IH]; cbn [String.append]; [reflexivity | now rewrite IH].
Qed.

(** What [lstrip_bytes] consumes entirely was whitespace. *)
Lemma lstrip_bytes_empty (l : list ascii) :
  Py.lstrip_bytes l = [] -> only_whitespace_bytes l.
Proof.
  remember (List.length l) as n eqn:Hn. revert l Hn.
  induction n as [n IH] using lt_wf_ind. intros l Hn H.
  destruct l as [| c1 r1]; [constructor |].
  cbn [Py.lstrip_bytes] in H. cbn [List.length] in Hn.
  destruct (Py.space1 c1) eqn:H1.
  { apply (Py.ws_more (String c1 EmptyString)); [now apply space1_whitespace |].
    apply (IH (List.length r1)); [lia | reflexivity | exact H]. }
  destruct r1 as [| c2 r2]; [discriminate H |]. cbn [List.length] in Hn.
  destruct (Py.space2 c1 c2) eqn:H2.
  { apply (Py.ws_more (String c1 (String c2 EmptyString)));
      [now apply space2_whitespace |].
    apply (IH (List.length r2)); [lia | reflexivity | exact H]. }
  destruct r2 as [| c3 r3]; [discriminate H |]. cbn [List.length] in Hn.
  destruct (Py.space3 c1 c2 c3) eqn:H3; [| discriminate H].
  apply (Py.ws_more (String c1 (String c2 (String c3 EmptyString))));
    [now apply space3_whitespace |].
  apply (IH (List.length r3)); [lia | reflexivity | exact H].
Qed.

(** The same from the end. *)
Lemma rstrip_rev_empty (l : list ascii) :
  Py.rstrip_rev l = [] -> only_whitespace_bytes (rev l).
Proof.
  remember (List.length l) as n eqn:Hn. revert l Hn.
  induction n as [n IH] using lt_wf_ind. intros l Hn H.
  destruct l as [| c1 r1]; [constructor |].
  cbn [Py.rstrip_rev] in H. cbn [List.length] in Hn.
  unfold only_whitespace_bytes.
  destruct (Py.space1 c1) eqn:H1.
  { cbn [rev]. rewrite string_of_list_app. apply whitespace_only_app.
    - apply (IH (List.length r1)); [lia | reflexivity | exact H].
    - apply whitespace_char_only. now apply space1_whitespace. }
  destruct r1 as [| c2 r2]; [discriminate H |]. cbn [List.length] in Hn.
  destruct (Py.space2 c2 c1) eqn:H2.
  { cbn [rev]. rewrite <- app_assoc, string_of_list_app. apply whitespace_only_app.
    - apply (IH (List.length r2)); [lia | reflexivity | exact H].
    - apply whitespace_char_only. now apply space2_whitespace. }
  destruct r2 as [| c3 r3]; [discriminate H |]. cbn [List.length] in Hn.
  destruct (Py.space3 c3 c2 c1) eqn:H3; [| discriminate H].
  cbn [rev]. rewrite <- !app_assoc, string_of_list_app. apply whitespace_only_app.
  - apply (IH (List.length r3)); [lia | reflexivity | exact H].
  - apply whitespace_char_only. now apply space3_whitespace.
Qed.

(** [lstrip_bytes] has nothing left to do on its own result. *)
Lemma lstrip_bytes_fixed (l l' : list ascii) :
  Py.lstrip_bytes l = l' -> Py.lstrip_bytes l' = l'.
Proof.
  remember (List.length l) as n eqn:Hn. revert l Hn.
  induction n as [n IH] using lt_wf_ind. intros l Hn H.
  destruct l as [| c1 r1]; [now subst l' |].
  cbn [List.length] in Hn. cbn [Py.lstrip_bytes] in H.
  destruct (Py.space1 c1) eqn:H1.
  { apply (IH (List.length r1)) with (l := r1); [lia | reflexivity | exact H]. }
  destruct r1 as [| c2 r2].
  { subst l'. cbn [Py.lstrip_bytes]. now rewrite H1. }
  cbn [List.length] in Hn.
  destruct (Py.space2 c1 c2) eqn:H2.
  { apply (IH (List.length r2)) with (l := r2); [lia | reflexivity | exact H]. }
  destruct r2 as [| c3 r3].
  { subst l'. cbn [Py.lstrip_bytes]. now rewrite H1, H2. }
  cbn [List.length] in Hn.
  destruct (Py.space3 c1 c2 c3) eqn:H3.
  { apply (IH (List.length r3)) with (l := r3); [lia | reflexivity | exact H]. }
  subst l'. cbn [Py.lstrip_bytes]. now rewrite H1, H2, H3.
Qed.

Lemma lstrip_bytes_whitespace_only (s : string) :
  Py.whitespace_only s -> Py.lstrip_bytes (list_ascii_of_string s) = [].
Proof.
  intros H. induction H as [| w s Hw Hs IH].
  - reflexivity.
  - rewrite list_ascii_app, lstrip_bytes_whitespace; assumption.
Qed.

Lemma string_of_list_empty (l : list ascii) : string_of_list_ascii l = "" -> l = [].
Proof. destruct l; [reflexivity | discriminate]. Qed.

(** [s.strip()] is empty exactly when [s] is made of whitespace only. *)
Lemma strip_empty_iff (s : string) : Py.strip s = "" <-> Py.whitespace_only s.
Proof.
  split; [| apply strip_whitespace_only].
  intros H. unfold Py.strip, Py.rstrip in H.
  apply string_of_list_empty in H.
  assert (Hr : Py.rstrip_rev (rev (list_ascii_of_string (Py.lstrip s))) = []).
  { destruct (Py.rstrip_rev _) as [| x tl]; [reflexivity |].
    cbn [rev] in H. apply app_eq_nil in H. destruct H as [_ H]. discriminate H. }
  apply rstrip_rev_empty in Hr. unfold only_whitespace_bytes in Hr.
  rewrite rev_involutive, string_of_list_ascii_of_string in Hr.
  apply lstrip_bytes_whitespace_only in Hr.
  unfold Py.lstrip in Hr. rewrite list_ascii_of_string_of_list_ascii in Hr.
  rewrite (lstrip_bytes_fixed _ _ eq_refl) in Hr.
  apply lstrip_bytes_empty in Hr. unfold only_whitespace_bytes in Hr.
  now rewrite string_of_list_ascii_of_string in Hr.
Qed.

(** ** More on process_voice_for_hashtags *)

Lemma not_blank (spoken : string) :
  ~ Py.whitespace_only spoken -> Py.strip spoken <> "".
Proof. intros H Hs. apply H. now apply strip_empty_iff. Qed.

(** After a transcript that is not blank, the requests sent are those the
    topic stage leaves behind. *)
Lemma pipeline_log_after_speech
    (self : Self) (audio_data : file_arg) (audio_format language : string)
    (log : list event) (r : dict) (log1 : list event) (spoken : string) :
  self_speech_to_text self audio_data language log = (Return r, log1) ->
  dict_get "text" r = Some (VStr spoken) ->
  Py.strip spoken <> "" ->
  snd (process_voice_for_hashtags self audio_data audio_format language log)
  = snd (self_extract_topics_and_hashtags self spoken
           (Some (voice_context language audio_format)) "en-US" log1).
Proof.
  intros Hs Ht Hn. unfold process_voice_for_hashtags, try_except, bind.
  rewrite Hs. unfold subscript. rewrite Ht. cbn [ret].
  destruct (Py.strip spoken); [congruence |]. cbn [Py.truthy_str negb].
  destruct (self_extract_topics_and_hashtags self spoken _ _ log1) as [[t | e] log2];
    [| reflexivity].
  destruct (dict_get "language" r); [| reflexivity].
  destruct (dict_get "duration" r); [| reflexivity].
  destruct (dict_get "confidence" r); [| reflexivity].
  cbn [ret]. destruct (dict_get_default "hashtags" (VList []) t); reflexivity.
Qed.

(** X13: the topic stage runs exactly when there is speech.  If the
    transcript is not made of whitespace only, the requests sent by
    [process_voice_for_hashtags] are those left by one run of the topic
    stage on the transcript, started where [speech_to_text] stopped; for the
    service itself these are the transcription request followed by one
    topic request, whose language preference is "en-US" whatever language
    the pipeline was given (the language travels in the context). *)
Theorem topic_stage_runs_on_speech :
  (forall (self : Self) audio_data audio_format language log r log1 spoken,
      self_speech_to_text self audio_data language log = (Return r, log1) ->
      dict_get "text" r = Some (VStr spoken) ->
      ~ Py.whitespace_only spoken ->
      snd (process_voice_for_hashtags self audio_data audio_format language log)
      = snd (self_extract_topics_and_hashtags self spoken
               (Some (voice_context language audio_format)) "en-US" log1)) /\
  (forall (E : Env) audio_data audio_format language heard_reply context_info,
      audio_transcriptions_create E
        (stt_request (as_buffer audio_data) (language_parameter language))
      = Return heard_reply ->
      ~ Py.whitespace_only (reply_text heard_reply) ->
      context_info_of E (Some (voice_context language audio_format)) = Return context_info ->
      sent (process_voice_for_hashtags (service E) audio_data audio_format language)
      = [ SentTranscription
            (stt_request (as_buffer audio_data) (language_parameter language));
          SentChat (extraction_request (reply_text heard_reply) "en-US" context_info) ]).
Proof.
  split.
  - intros self audio_data audio_format language log r log1 spoken Hs Ht Hw.
    apply (pipeline_log_after_speech self audio_data audio_format language log r log1
             spoken Hs Ht (not_blank spoken Hw)).
  - intros E audio_data audio_format language heard_reply context_info Hr Hw Hc.
    unfold sent, run.
    rewrite (pipeline_log_after_speech (service E) audio_data audio_format language []
               (transcription_record language heard_reply)
               [SentTranscription
                  (stt_request (as_buffer audio_data) (language_parameter language))]
               (reply_text heard_reply)).
    + cbn [service self_extract_topics_and_hashtags].
      rewrite extraction_sent, Hc. reflexivity.
    + cbn [service self_speech_to_text]. rewrite speech_to_text_run, Hr. reflexivity.
    + reflexivity.
    + now apply not_blank.
Qed.

Lemma topic_stage_runs_on_speech_hello :
  sent (process_voice_for_hashtags (service chat_down) (FileBytes []) "mp3" "fr-FR")
  = [ SentTranscription (stt_request (as_buffer (FileBytes [])) (Some "fr"));
      SentChat
        (extraction_request "hello" "en-US"
           (Py.nl ++ "User context: "
            ++ match Json.dumps_indent2 (VDict (voice_context "fr-FR" "mp3")) with
               | Return dumped => dumped
               | Raise _ => ""
               end)) ].
Proof.
  apply (proj2 topic_stage_runs_on_speech chat_down (FileBytes []) "mp3" "fr-FR"
           (heard "hello" (Some "english"))).
  - reflexivity.
  - intros H. apply strip_empty_iff in H. discriminate H.
  - reflexivity.
Defined.

(** X14: a topic record whose hashtags entry has no length (null, a
    number, a boolean) turns a run in which both stages succeeded into the
    empty record with an error: the error says that the object has no
    [len()]. *)
Theorem pipeline_hashtags_without_length
    (self : Self) (audio_data : file_arg) (audio_format language : string)
    (log : list event) (r : dict) (log1 : list event) (spoken : string)
    (t : dict) (log2 : list event) (lv dv cv hashtags : value) :
  self_speech_to_text self audio_data language log = (Return r, log1) ->
  dict_get "text" r = Some (VStr spoken) ->
  ~ Py.whitespace_only spoken ->
  self_extract_topics_and_hashtags self spoken
    (Some (voice_context language audio_format)) "en-US" log1 = (Return t, log2) ->
  dict_get "language" r = Some lv ->
  dict_get "duration" r = Some dv ->
  dict_get "confidence" r = Some cv ->
  dict_get "hashtags" t = Some hashtags ->
  sized hashtags = false ->
  process_voice_for_hashtags self audio_data audio_format language log
  = (Return [ ("transcription", VStr "");
              ("main_topics", VList []);
              ("hashtags", VList []);
              ("error",
               VStr ("object of type '" ++ type_name hashtags ++ "' has no len()")) ],
     log2).
Proof.
  intros Hs Ht Hw He Hl Hd Hc Hh Hz.
  assert (Hg : dict_get_default "hashtags" (VList []) t = hashtags).
  { unfold dict_get_default. now rewrite Hh. }
  rewrite (pipeline_unsized self audio_data audio_format language log r log1 spoken
             t log2 lv dv cv Hs Ht (not_blank spoken Hw) He Hl Hd Hc);
    rewrite Hg; [reflexivity | exact Hz].
Qed.

Lemma pipeline_hashtags_without_length_null :
  process_voice_for_hashtags (service (hello_then null_hashtags_json))
                             (FileBytes []) "mp3" "en-US" []
  = (Return [ ("transcription", VStr "");
              ("main_topics", VList []);
              ("hashtags", VList []);
              ("error", VStr "object of type 'NoneType' has no len()") ],
     snd (extract_topics_and_hashtags (hello_then null_hashtags_json) "hello"
            (Some (voice_context "en-US" "mp3")) "en-US"
            [SentTranscription (stt_request (as_buffer (FileBytes [])) (Some "en"))])).
Proof.
  apply (pipeline_hashtags_without_length
           (service (hello_then null_hashtags_json)) (FileBytes []) "mp3" "en-US" []
           (transcription_record "en-US" (heard "hello" (Some "english")))
           [SentTranscription (stt_request (as_buffer (FileBytes [])) (Some "en"))]
           "hello"
           [("hashtags", VNone)]
           (snd (extract_topics_and_hashtags (hello_then null_hashtags_json) "hello"
                   (Some (voice_context "en-US" "mp3")) "en-US"
                   [SentTranscription (stt_request (as_buffer (FileBytes [])) (Some "en"))]))
           (VStr "english") (VFloat (Finite (3 # 2))) (VFloat (Finite (95 # 100))) VNone);
    try reflexivity.
  intros H. apply strip_empty_iff in H. discriminate H.
Defined.

(** X15: what the topic record lacks is filled in.  Take a transcription
    record that holds text, language, duration and confidence, a transcript
    that is not blank, and a topic record whose hashtags entry is absent or
    has a length.  Then the record returned has exactly ten keys; language,
    duration and confidence are those of the transcription record; an entry
    the topic record has is copied, and one it does not have gets its
    default: no topics, no hashtags, category "other", sentiment "neutral",
    style "casual", and for the summary the first hundred characters of the
    transcript. *)
Theorem pipeline_defaults
    (self : Self) (audio_data : file_arg) (audio_format language : string)
    (log : list event) (r : dict) (log1 : list event) (spoken : string)
    (t : dict) (log2 : list event) (lv dv cv : value) :
  self_speech_to_text self audio_data language log = (Return r, log1) ->
  dict_get "text" r = Some (VStr spoken) ->
  ~ Py.whitespace_only spoken ->
  self_extract_topics_and_hashtags self spoken
    (Some (voice_context language audio_format)) "en-US" log1 = (Return t, log2) ->
  dict_get "language" r = Some lv ->
  dict_get "duration" r = Some dv ->
  dict_get "confidence" r = Some cv ->
  sized (dict_get_default "hashtags" (VList []) t) = true ->
  exists out,
    process_voice_for_hashtags self audio_data audio_format language log = (Return out, log2)
    /\ keys out = [ "transcription"; "language"; "duration"; "confidence"; "main_topics";
                    "hashtags"; "category"; "sentiment"; "conversation_style"; "summary" ]
    /\ dict_get "language" out = Some lv
    /\ dict_get "duration" out = Some dv
    /\ dict_get "confidence" out = Some cv
    /\ (dict_get "main_topics" t = None -> dict_get "main_topics" out = Some (VList []))
    /\ (dict_get "hashtags" t = None -> dict_get "hashtags" out = Some (VList []))
    /\ (dict_get "category" t = None -> dict_get "category" out = Some (VStr "other"))
    /\ (dict_get "sentiment" t = None -> dict_get "sentiment" out = Some (VStr "neutral"))
    /\ (dict_get "conversation_style" t = None ->
        dict_get "conversation_style" out = Some (VStr "casual"))
    /\ (dict_get "summary" t = None ->
        dict_get "summary" out = Some (VStr (Py.take_chars 100 spoken)))
    /\ (forall k v, In k [ "main_topics"; "hashtags"; "category"; "sentiment";
                           "conversation_style"; "summary" ] ->
                    dict_get k t = Some v -> dict_get k out = Some v).
Proof.
  intros Hs Ht Hw He Hl Hd Hc Hz.
  eexists. split.
  { exact (pipeline_merges self audio_data audio_format language log r log1 spoken
             Hs Ht (not_blank spoken Hw) t log2 lv dv cv He Hl Hd Hc Hz). }
  split; [reflexivity |]. split; [reflexivity |]. split; [reflexivity |].
  split; [reflexivity |].
  unfold dict_get_default.
  repeat split;
    try (intros H; cbn [dict_get String.eqb Ascii.eqb Bool.eqb]; now rewrite H).
  intros k v Hk Hv. cbn [In] in Hk.
  repeat (destruct Hk as [<- | Hk];
          [cbn [dict_get String.eqb Ascii.eqb Bool.eqb]; now rewrite Hv |]).
  contradiction.
Qed.

Lemma pipeline_defaults_empty_object :
  exists out,
    process_voice_for_hashtags (service (hello_then "{}")) (FileBytes []) "mp3" "en-US" []
    = (Return out,
       snd (extract_topics_and_hashtags (hello_then "{}") "hello"
              (Some (voice_context "en-US" "mp3")) "en-US"
              [SentTranscription (stt_request (as_buffer (FileBytes [])) (Some "en"))]))
    /\ keys out = [ "transcription"; "language"; "duration"; "confidence"; "main_topics";
                    "hashtags"; "category"; "sentiment"; "conversation_style"; "summary" ]
    /\ dict_get "language" out = Some (VStr "english")
    /\ dict_get "duration" out = Some (VFloat (Finite (3 # 2)))
    /\ dict_get "confidence" out = Some (VFloat (Finite (95 # 100)))
    /\ (@None value = None -> dict_get "main_topics" out = Some (VList []))
    /\ (@None value = None -> dict_get "hashtags" out = Some (VList []))
    /\ (@None value = None -> dict_get "category" out = Some (VStr "other"))
    /\ (@None value = None -> dict_get "sentiment" out = Some (VStr "neutral"))
    /\ (@None value = None -> dict_get "conversation_style" out = Some (VStr "casual"))
    /\ (@None value = None -> dict_get "summary" out = Some (VStr "hello"))
    /\ (forall k v, In k [ "main_topics"; "hashtags"; "category"; "sentiment";
                           "conversation_style"; "summary" ] ->
                    dict_get k [] = Some v -> dict_get k out = Some v).
Proof.
  apply (pipeline_defaults
           (service (hello_then "{}")) (FileBytes []) "mp3" "en-US" []
           (transcription_record "en-US" (heard "hello" (Some "english")))
           [SentTranscription (stt_request (as_buffer (FileBytes [])) (Some "en"))]
           "hello" []
           (snd (extract_topics_and_hashtags (hello_then "{}") "hello"
                   (Some (voice_context "en-US" "mp3")) "en-US"
                   [SentTranscription (stt_request (as_buffer (FileBytes [])) (Some "en"))]))
           (VStr "english") (VFloat (Finite (3 # 2))) (VFloat (Finite (95 # 100))));
    try reflexivity.
  intros H. apply strip_empty_iff in H. discriminate H.
Defined.

(** X16: a transcription failure reaches the caller of the pipeline as
    data.  When the transcription endpoint raises [e], the service's
    [process_voice_for_hashtags] returns the empty record whose error is
    "STT processing failed: " followed by [str(e)], and the transcription
    request is the only request sent. *)
Theorem pipeline_transcription_failure
    (E : Env) (audio_data : file_arg) (audio_format language : string) (e : exn) :
  audio_transcriptions_create E
    (stt_request (as_buffer audio_data) (language_parameter language)) = Raise e ->
  result (process_voice_for_hashtags (service E) audio_data audio_format language)
  = Return [ ("transcription", VStr "");
             ("main_topics", VList []);
             ("hashtags", VList []);
             ("error", VStr ("STT processing failed: " ++ exn_str e)) ]
  /\ sent (process_voice_for_hashtags (service E) audio_data audio_format language)
     = [SentTranscription (stt_request (as_buffer audio_data) (language_parameter language))].
Proof.
  intros H. unfold result, sent, run.
  rewrite (pipeline_stt_raises (service E) audio_data audio_format language []
             (stt_failure e)
             [SentTranscription
                (stt_request (as_buffer audio_data) (language_parameter language))]).
  - split; reflexivity.
  - cbn [service self_speech_to_text]. rewrite speech_to_text_run, H. reflexivity.
Qed.

Lemma pipeline_transcription_failure_unreachable :
  result (process_voice_for_hashtags (service (unreachable connection_error))
                                     (FileBytes []) "mp3" "en-US")
  = Return [ ("transcription", VStr "");
             ("main_topics", VList []);
             ("hashtags", VList []);
             ("error", VStr "STT processing failed: Connection error.") ]
  /\ sent (process_voice_for_hashtags (service (unreachable connection_error))
                                      (FileBytes []) "mp3" "en-US")
     = [SentTranscription (stt_request (as_buffer (FileBytes [])) (Some "en"))].
Proof.
  apply (pipeline_transcription_failure (unreachable connection_error)
           (FileBytes []) "mp3" "en-US" connection_error).
  reflexivity.
Defined.

(** X17: a failure of the topic request does not show in the result of
    the pipeline.  When the transcript is not blank and the chat endpoint
    raises, the service's [process_voice_for_hashtags] returns the
    transcript with the placeholder topics of the topic stage (main_topics
    ["general"], hashtags ["#general", "#chat"], summary "Could not analyze
    topics") and no error field. *)
Theorem pipeline_hides_topic_failure
    (E : Env) (audio_data : file_arg) (audio_format language : string)
    (heard_reply : transcription) (context_info : string) (e : exn) :
  audio_transcriptions_create E
    (stt_request (as_buffer audio_data) (language_parameter language)) = Return heard_reply ->
  ~ Py.whitespace_only (reply_text heard_reply) ->
  context_info_of E (Some (voice_context language audio_format)) = Return context_info ->
  chat_completions_create E
    (extraction_request (reply_text heard_reply) "en-US" context_info) = Raise e ->
  result (process_voice_for_hashtags (service E) audio_data audio_format language)
  = Return [ ("transcription", VStr (reply_text heard_reply));
             ("language", match reply_language heard_reply with
                          | Missing => VStr language
                          | Attr (Some detected) => VStr detected
                          | Attr None => VNone
                          end);
             ("duration", match reply_duration heard_reply with
                          | Missing => VFloat (Finite 0)
                          | Attr (Some seconds) => VFloat seconds
                          | Attr None => VNone
                          end);
             ("confidence", VFloat (Finite (95 # 100)));
             ("main_topics", VList [VStr "general"]);
             ("hashtags", VList [VStr "#general"; VStr "#chat"]);
             ("category", VStr "other");
             ("sentiment", VStr "neutral");
             ("conversation_style", VStr "casual");
             ("summary", VStr "Could not analyze topics") ].
Proof.
  intros Hr Hw Hc He. unfold result, run.
  pose (log1 := [SentTranscription
                   (stt_request (as_buffer audio_data) (language_parameter language))]).
  pose proof (extraction_remote_failure E (reply_text heard_reply)
                (Some (voice_context language audio_format)) "en-US" context_info e
                log1 Hc He) as Hf.
  destruct (extract_topics_and_hashtags E (reply_text heard_reply)
              (Some (voice_context language audio_format)) "en-US" log1)
    as [o log2] eqn:Hx.
  cbn [fst] in Hf. subst o.
  rewrite (pipeline_merges (service E) audio_data audio_format language []
             (transcription_record language heard_reply) log1 (reply_text heard_reply)
             ltac:(cbn [service self_speech_to_text];
                   rewrite speech_to_text_run, Hr; reflexivity)
             eq_refl (not_blank _ Hw)
             (extraction_failure e) log2
             (getattr VStr (reply_language heard_reply) language)
             (getattr VFloat (reply_duration heard_reply) (Finite 0))
             (VFloat (Finite (95 # 100)))
             Hx eq_refl eq_refl eq_refl eq_refl).
  reflexivity.
Qed.

Lemma pipeline_hides_topic_failure_chat_down :
  result (process_voice_for_hashtags (service chat_down) (FileBytes []) "mp3" "fr-FR")
  = Return [ ("transcription", VStr "hello");
             ("language", VStr "english");
             ("duration", VFloat (Finite (3 # 2)));
             ("confidence", VFloat (Finite (95 # 100)));
             ("main_topics", VList [VStr "general"]);
             ("hashtags", VList [VStr "#general"; VStr "#chat"]);
             ("category", VStr "other");
             ("sentiment", VStr "neutral");
             ("conversation_style", VStr "casual");
             ("summary", VStr "Could not analyze topics") ].
Proof.
  apply (pipeline_hides_topic_failure chat_down (FileBytes []) "mp3" "fr-FR"
           (heard "hello" (Some "english"))
           (Py.nl ++ "User context: "
            ++ match Json.dumps_indent2 (VDict (voice_context "fr-FR" "mp3")) with
               | Return dumped => dumped
               | Raise _ => ""
               end)
           connection_error).
  - reflexivity.
  - intros H. apply strip_empty_iff in H. discriminate H.
  - reflexivity.
  - reflexivity.
Defined.

(** ** More on moderation *)

(** X18: the tags of [_extract_suggestions] come in one fixed order, each
    at most once: the result is the list suggestion, topic, fact checking
    with the tags that do not apply left out, so it never repeats a tag and
    never has more than three. *)
Theorem extract_suggestions_order (ai_text : string) :
  _extract_suggestions ai_text
  = filter (fun tag => existsb (String.eqb tag) (_extract_suggestions ai_text))
           [suggestion_tag; topic_tag; fact_tag]
  /\ NoDup (_extract_suggestions ai_text)
  /\ (List.length (_extract_suggestions ai_text) <= 3)%nat.
Proof.
  unfold _extract_suggestions.
  destruct (Py.contains "suggest" (Py.lower ai_text));
    destruct (Py.contains "topic" (Py.lower ai_text));
    destruct (Py.contains "fact" (Py.lower ai_text) || Py.contains "info" (Py.lower ai_text));
    (split; [reflexivity |]);
    (split; [| cbn; lia]);
    cbn [app];
    repeat (constructor; [cbn [In]; intuition discriminate |]);
    constructor.
Qed.

(** X19: input that is empty counts as absent.  With no audio or empty
    audio, and no text or empty text, the user message of
    [moderate_room_conversation] carries the one instruction "Please assist
    in moderating the conversation".  With audio that is not empty, the
    first part of the user message is the audio (raw bytes in base64, a
    string as it is), always labelled "wav", and it is followed by the text
    part if the text is not empty and by nothing otherwise.  With text that
    is not empty and no audio, the text part is the only one. *)
Theorem moderation_user_message
    (conversation_context : option (list value))
    (room_participants : option (list string)) (moderation_mode : string) :
  (forall audio_data text_input,
      audio_data = None \/ audio_data = Some (AudioBytes [])
      \/ audio_data = Some (AudioText "") ->
      text_input = None \/ text_input = Some "" ->
      exists front,
        moderation_messages audio_data text_input conversation_context
                            room_participants moderation_mode
        = (front
           ++ [ VDict [ ("role", VStr "user");
                        ("content",
                         VList [ VDict [ ("type", VStr "input_text");
                                         ("text",
                                          VStr "Please assist in moderating the conversation")
                                       ] ]) ] ])%list) /\
  (forall audio text_input,
      (exists b rest, audio = AudioBytes (b :: rest))
      \/ (exists c s, audio = AudioText (String c s)) ->
      exists front,
        moderation_messages (Some audio) text_input conversation_context
                            room_participants moderation_mode
        = (front
           ++ [ VDict [ ("role", VStr "user");
                        ("content",
                         VList (VDict [ ("type", VStr "input_audio");
                                        ("input_audio",
                                         VDict [ ("data",
                                                  VStr (match audio with
                                                        | AudioBytes raw =>
                                                            Base64.b64encode raw
                                                        | AudioText encoded => encoded
                                                        end));
                                                 ("format", VStr "wav") ]) ]
                                :: match text_input with
                                   | Some (String c s) =>
                                       [ VDict [ ("type", VStr "input_text");
                                                 ("text", VStr (String c s)) ] ]
                                   | Some EmptyString => []
                                   | None => []
                                   end)) ] ])%list) /\
  (forall audio_data c s,
      audio_data = None \/ audio_data = Some (AudioBytes [])
      \/ audio_data = Some (AudioText "") ->
      exists front,
        moderation_messages audio_data (Some (String c s)) conversation_context
                            room_participants moderation_mode
        = (front
           ++ [ VDict [ ("role", VStr "user");
                        ("content",
                         VList [ VDict [ ("type", VStr "input_text");
                                         ("text", VStr (String c s)) ] ]) ] ])%list).
Proof.
  split; [| split].
  - intros audio_data text_input Ha Ht. unfold moderation_messages.
    eexists.
    destruct Ha as [-> | [-> | ->]]; destruct Ht as [-> | ->]; reflexivity.
  - intros audio text_input Ha. unfold moderation_messages.
    eexists.
    destruct Ha as [[b [rest ->]] | [c [s ->]]];
      destruct text_input as [[| ch tl] |]; reflexivity.
  - intros audio_data c s Ha. unfold moderation_messages.
    eexists.
    destruct Ha as [-> | [-> | ->]]; reflexivity.
Qed.

Lemma moderation_user_message_silence :
  exists front,
    moderation_messages (Some (AudioBytes [])) (Some "") None (Some ["ann"]) "secretary"
    = (front
       ++ [ VDict [ ("role", VStr "user");
                    ("content",
                     VList [ VDict [ ("type", VStr "input_text");
                                     ("text",
                                      VStr "Please assist in moderating the conversation")
                                   ] ]) ] ])%list.
Proof.
  apply (proj1 (moderation_user_message None (Some ["ann"]) "secretary")
           (Some (AudioBytes [])) (Some "")).
  - right. left. reflexivity.
  - right. reflexivity.
Defined.
